(** * Chat read-retrieve-read approach: conversation assembly and pipeline

    A shallow embedding of [ChatReadRetrieveRead] (the retrieve-then-read chat
    approach): the prompt constants, the JavaScript string primitives the class
    relies on ([trim], [startsWith], [slice], [replace] with a string pattern),
    the message assembler [getMessagesFromHistory], and the three-step
    [baseRun] with its two front ends [run] and [runWithStreaming].

    Strings are sequences of code units; [string] covers the code units
    0..255, which is enough for every literal of the source. *)

From Stdlib Require Import String Ascii List ZArith Lia Bool Arith.
Import ListNotations.
Local Open Scope list_scope.
Local Open Scope string_scope.

(** ** JavaScript values and string primitives *)

Module Js.

(** Errors a JavaScript expression can raise in the code under study. *)
Inductive error : Type :=
| TypeError.

(** Outcome of a computation that may throw. *)
Inductive result (A : Type) : Type :=
| Ok (a : A)
| Throw (e : error).
Arguments Ok {A} a.
Arguments Throw {A} e.

(** [ToString] of a possibly [undefined] string, as performed by [+] with a
    string operand and by template literals. *)
Definition toString (v : option string) : string :=
  match v with
  | Some s => s
  | None => "undefined"
  end.

(** Truthiness of a possibly [undefined] string: [undefined] and the empty
    string are falsy.  Returns the string when it is truthy. *)
Definition truthy (v : option string) : option string :=
  match v with
  | Some EmptyString => None
  | Some s => Some s
  | None => None
  end.

(** [v ?? d] on strings. *)
Definition nullish (v : option string) (d : string) : string :=
  match v with
  | Some s => s
  | None => d
  end.

(** [v === s] for a possibly [undefined] [v] and a string [s]. *)
Definition strictEq (v : option string) (s : string) : bool :=
  match v with
  | Some t => String.eqb t s
  | None => false
  end.

(** White space and line terminators among the code units 0..255:
    TAB, LF, VT, FF, CR, SP and NBSP. *)
Definition isWhiteSpace (c : ascii) : bool :=
  let n := nat_of_ascii c in
  (((9 <=? n) && (n <=? 13)) || (n =? 32) || (n =? 160))%nat.

Fixpoint trimStart (s : string) : string :=
  match s with
  | EmptyString => EmptyString
  | String c r => if isWhiteSpace c then trimStart r else s
  end.

(** Removes trailing white space: a character is kept when it is not white
    space or when something survives after it. *)
Fixpoint trimEnd (s : string) : string :=
  match s with
  | EmptyString => EmptyString
  | String c r =>
      match trimEnd r with
      | EmptyString => if isWhiteSpace c then EmptyString else String c EmptyString
      | r' => String c r'
      end
  end.

(** [String.prototype.trim]. *)
Definition trim (s : string) : string := trimEnd (trimStart s).

(** [s.startsWith(p)]. *)
Definition startsWith (s p : string) : bool := String.prefix p s.

(** [s.slice(n)] for a non-negative [n]. *)
Fixpoint slice (n : nat) (s : string) : string :=
  match n, s with
  | O, _ => s
  | S _, EmptyString => EmptyString
  | S m, String _ r => slice m r
  end.

(** Splits [s] around the first occurrence of [pat]: the text before the
    match and the text after it; [None] when [pat] does not occur. *)
Fixpoint splitAtFirst (pat s : string) : option (string * string) :=
  if String.prefix pat s then Some (EmptyString, slice (String.length pat) s)
  else
    match s with
    | EmptyString => None
    | String c r =>
        match splitAtFirst pat r with
        | Some (before, after) => Some (String c before, after)
        | None => None
        end
    end.

(** [GetSubstitution] for a string pattern (no capture groups): in the
    replacement text [$$] stands for a dollar sign, [$&] for the matched
    text, [$`] for the text before the match and [$'] for the text after
    it; every other character, a dollar sign followed by anything else
    included, stands for itself. *)
Fixpoint getSubstitution (matched before after template : string) : string :=
  match template with
  | EmptyString => EmptyString
  | String "$" (String "$" r) =>
      String "$" (getSubstitution matched before after r)
  | String "$" (String "&" r) =>
      matched ++ getSubstitution matched before after r
  | String "$" (String "`" r) =>
      before ++ getSubstitution matched before after r
  | String "$" (String "'" r) =>
      after ++ getSubstitution matched before after r
  | String c r => String c (getSubstitution matched before after r)
  end.

(** [s.replace(pat, replacement)] with a string pattern and a string
    replacement: only the first occurrence is replaced. *)
Definition replace (s pat replacement : string) : string :=
  match splitAtFirst pat s with
  | Some (before, after) =>
      before ++ getSubstitution pat before after replacement ++ after
  | None => s
  end.

End Js.

(** ** Prompt constants *)

Definition SYSTEM_MESSAGE_CHAT_CONVERSATION : string :=
  "Assistant helps the Consto Real Estate company customers with support questions regarding terms of service, privacy policy, and questions about support requests. Be brief in your answers.
Answer ONLY with the facts listed in the list of sources below. If there isn't enough information below, say you don't know. Do not generate answers that don't use the sources below. If asking a clarifying question to the user would help, ask the question.
For tabular information return it as an html table. Do not return markdown format. If the question is not in English, answer in the language used in the question.
Each source has a name followed by colon and the actual information, always include the source name for each fact you use in the response. Use square brackets to reference the source, e.g. [info1.txt]. Don't combine sources, list each source separately, e.g. [info1.txt][info2.pdf].
{follow_up_questions_prompt}
{injected_prompt}
".

Definition FOLLOW_UP_QUESTIONS_PROMPT_CONTENT : string :=
  "Generate three very brief follow-up questions that the user would likely ask next about rentals.
Use double angle brackets to reference the questions, e.g. <<Am I allowed to invite friends for a party?>>.
Try not to repeat questions that have already been asked.
Only generate questions and do not generate any text before or after the questions, such as 'Next Questions'".

Definition QUERY_PROMPT_TEMPLATE : string :=
  "Below is a history of the conversation so far, and a new question asked by the user that needs to be answered by searching in a knowledge base about terms of service, privacy policy, and questions about support requests.
Generate a search query based on the conversation and the new question.
Do not include cited source filenames and document names e.g info.txt or doc.pdf in the search query terms.
Do not include any text inside [] or <<>> in the search query terms.
Do not include any special characters like '+'.
If the question is not in English, translate the question to English before generating the search query.
If you cannot generate a search query, return just the number 0.
".

(** ** Data model *)

Module Role.
(** Modelled from the spec: the closed role set of [Message]
    ([system | user | assistant]); its declaration lives in [message.ts]. *)
Inductive t : Type :=
| system
| user
| assistant.
End Role.

(** Modelled from the spec: [Message], a role paired with text content
    (declared in [message.ts]). *)
Record Message : Type := { role : Role.t; content : string }.

(** Modelled from the spec: [HistoryMessage], one turn with optional [user]
    text and optional [bot] text (declared in [message.ts]). *)
Record HistoryMessage : Type := { user : option string; bot : option string }.

Definition QUERY_PROMPT_FEW_SHOTS : list Message :=
  [ {| role := Role.user; content := "What happens if a payment error occurs?" |};
    {| role := Role.assistant; content := "Show support for payment errors" |};
    {| role := Role.user; content := "can I get refunded if cannot travel?" |};
    {| role := Role.assistant; content := "Refund policy" |} ].

(** ** The message builder *)

Module MessageBuilder.

(** Modelled from the spec: the state of a [MessageBuilder]
    ([message-builder.ts]): the messages built so far, the model they are
    measured for, and their running token total. *)
Record t : Type := { messages : list Message; model : string; tokens : Z }.

(** [l.splice(index, 0, x)]: [x] is inserted before position [index], at
    the end when [index] is past the end. *)
Definition splice {A : Type} (index : nat) (x : A) (l : list A) : list A :=
  firstn index l ++ x :: skipn index l.

Section TokenMeter.

(** The token meter: the cost of one message for a model. *)
Variable getTokenCountFromMessages : Message -> string -> Z.

(** Modelled from the spec: the constructor of [MessageBuilder]
    ([message-builder.ts]); the builder starts with the system prompt at
    position 0 and its cost as the running total. *)
Definition new (systemContent chatgptModel : string) : t :=
  let m := {| role := Role.system; content := systemContent |} in
  {| messages := [m];
     model := chatgptModel;
     tokens := getTokenCountFromMessages m chatgptModel |}.

(** Modelled from the spec: [MessageBuilder.appendMessage]
    ([message-builder.ts]); the message is inserted at the anchor
    [index] (1, right after the system prompt, when the caller gives
    none) and its cost is added to the running total. *)
Definition appendMessage (r : Role.t) (c : string) (index : nat) (b : t) : t :=
  let m := {| role := r; content := c |} in
  {| messages := splice index m (messages b);
     model := model b;
     tokens := tokens b + getTokenCountFromMessages m (model b) |}.

End TokenMeter.

End MessageBuilder.

(** ** The conversation assembler *)

Section Assembler.

Variable getTokenCountFromMessages : Message -> string -> Z.

(** [for (const shot of shots) messageBuilder.appendMessage(shot.role, shot.content)] *)
Definition appendShots (shots : list Message) (b : MessageBuilder.t) : MessageBuilder.t :=
  fold_left
    (fun acc shot =>
       MessageBuilder.appendMessage getTokenCountFromMessages
         (role shot) (content shot) 1 acc)
    shots b.

(** Body of the history loop up to the budget test. *)
Definition appendTurn (appendIndex : nat) (h : HistoryMessage)
    (b : MessageBuilder.t) : MessageBuilder.t :=
  let b1 :=
    match Js.truthy (bot h) with
    | Some t =>
        MessageBuilder.appendMessage getTokenCountFromMessages
          Role.assistant t appendIndex b
    | None => b
    end in
  match Js.truthy (user h) with
  | Some t =>
      MessageBuilder.appendMessage getTokenCountFromMessages Role.user t appendIndex b1
  | None => b1
  end.

(** The history loop: each turn is inserted, then the running total is
    compared with the budget and the loop is left when it is exceeded. *)
Fixpoint walkHistory (appendIndex : nat) (maxTokens : Z)
    (turns : list HistoryMessage) (b : MessageBuilder.t) : MessageBuilder.t :=
  match turns with
  | [] => b
  | h :: rest =>
      let b' := appendTurn appendIndex h b in
      if (MessageBuilder.tokens b' >? maxTokens)%Z then b'
      else walkHistory appendIndex maxTokens rest b'
  end.

(** Result of one call: the returned messages, and the contents of the
    caller's [fewShots] array after the call ([Array.prototype.reverse]
    reverses the array it is called on). *)
Record Assembled : Type := { returned : list Message; fewShotsAfter : list Message }.

(** [getMessagesFromHistory]; both call sites pass all six arguments, so the
    defaults of [fewShots] and [maxTokens] play no part.  The history is
    copied by [slice(0, -1)] before it is reversed; the few-shots are not. *)
Definition getMessagesFromHistory (systemPrompt chatModel : string)
    (history : list HistoryMessage) (userContent : string)
    (fewShots : list Message) (maxTokens : Z) : Assembled :=
  let messageBuilder :=
    MessageBuilder.new getTokenCountFromMessages systemPrompt chatModel in
  let fewShots := rev fewShots in
  let messageBuilder := appendShots fewShots messageBuilder in
  let appendIndex := length fewShots + 1 in
  let messageBuilder :=
    MessageBuilder.appendMessage getTokenCountFromMessages
      Role.user userContent appendIndex messageBuilder in
  let messageBuilder :=
    walkHistory appendIndex maxTokens (rev (removelast history)) messageBuilder in
  {| returned :=
       map (fun m => {| role := role m; content := content m |})
           (MessageBuilder.messages messageBuilder);
     fewShotsAfter := fewShots |}.

(** *** Specification vocabulary *)

(** Messages contributed by one history turn, oldest first. *)
Definition turnMessages (h : HistoryMessage) : list Message :=
  match Js.truthy (user h) with
  | Some t => [ {| role := Role.user; content := t |} ]
  | None => []
  end ++
  match Js.truthy (bot h) with
  | Some t => [ {| role := Role.assistant; content := t |} ]
  | None => []
  end.

(** Cost of a sequence of messages for a model. *)
Definition tokensOf (chatModel : string) (l : list Message) : Z :=
  fold_right (fun m acc => (getTokenCountFromMessages m chatModel + acc)%Z) 0%Z l.

(** Running total once the [j] newest of [turns] have been inserted after
    the system prompt, the few-shots and the trailing user content. *)
Definition costAfter (systemPrompt chatModel userContent : string)
    (fewShots : list Message) (turns : list HistoryMessage) (j : nat) : Z :=
  (tokensOf chatModel
     ({| role := Role.system; content := systemPrompt |}
        :: fewShots ++ [ {| role := Role.user; content := userContent |} ])
   + tokensOf chatModel (flat_map turnMessages (firstn j turns)))%Z.

(** Number of iterations the history loop performs. *)
Fixpoint walkedTurns (appendIndex : nat) (maxTokens : Z)
    (turns : list HistoryMessage) (b : MessageBuilder.t) : nat :=
  match turns with
  | [] => 0
  | h :: rest =>
      let b' := appendTurn appendIndex h b in
      if (MessageBuilder.tokens b' >? maxTokens)%Z then 1
      else S (walkedTurns appendIndex maxTokens rest b')
  end.

(** Number of history turns a call includes. *)
Definition includedTurns (systemPrompt chatModel : string)
    (history : list HistoryMessage) (userContent : string)
    (fewShots : list Message) (maxTokens : Z) : nat :=
  let fewShots := rev fewShots in
  let appendIndex := length fewShots + 1 in
  walkedTurns appendIndex maxTokens (rev (removelast history))
    (MessageBuilder.appendMessage getTokenCountFromMessages Role.user userContent appendIndex
       (appendShots fewShots
          (MessageBuilder.new getTokenCountFromMessages systemPrompt chatModel))).

End Assembler.

(** ** The pipeline *)

(** Line feed, the ['\n'] of the source. *)
Definition LF : string := String (ascii_of_nat 10) EmptyString.

(** System prompt of the synthesis step for a follow-up questions block and
    a caller prompt override. *)
Definition resolveSystemMessage (followUpQuestionsPrompt : string)
    (promptOverride : option string) : string :=
  if match promptOverride with Some p => Js.startsWith p ">>>" | None => false end then
    Js.replace
      (Js.replace SYSTEM_MESSAGE_CHAT_CONVERSATION "{follow_up_questions_prompt}"
         followUpQuestionsPrompt)
      "{injected_prompt}" (Js.slice 3 (Js.toString promptOverride) ++ LF)
  else
    match Js.truthy promptOverride with
    | Some p =>
        Js.replace
          (Js.replace SYSTEM_MESSAGE_CHAT_CONVERSATION "{follow_up_questions_prompt}"
             followUpQuestionsPrompt)
          "{injected_prompt}" p
    | None =>
        Js.replace
          (Js.replace SYSTEM_MESSAGE_CHAT_CONVERSATION "{follow_up_questions_prompt}"
             followUpQuestionsPrompt)
          "{injected_prompt}" ""
    end.

(** [history[history.length - 1].user]: reading a property of [undefined]
    throws. *)
Definition lastUser (history : list HistoryMessage) : Js.result (option string) :=
  match nth_error history (length history - 1) with
  | Some h => Js.Ok (user h)
  | None => Js.Throw Js.TypeError
  end.

(** Lines 122 to 126: the trimmed completion text, replaced by the last user
    input when it is the sentinel. *)
Definition rewrittenQuery (completion : option string)
    (history : list HistoryMessage) : Js.result (option string) :=
  let queryText := option_map Js.trim completion in
  if Js.strictEq queryText "0" then lastUser history else Js.Ok queryText.

Module ChatApproachContext.
(** Modelled from the spec: the caller's optional flags and overrides
    (declared in [approach.ts]); only the fields this class reads. *)
Record t (number : Type) : Type :=
  { suggest_followup_questions : option bool;
    prompt_template : option string;
    temperature : option number }.
Arguments suggest_followup_questions {number} _.
Arguments prompt_template {number} _.
Arguments temperature {number} _.
End ChatApproachContext.

Module CompletionRequest.
(** The request object built on lines 114 to 120 and 171 to 177. *)
Record t (number : Type) : Type :=
  { model : string;
    messages : list Message;
    temperature : number;
    max_tokens : Z;
    n : Z }.
Arguments model {number} _.
Arguments messages {number} _.
Arguments temperature {number} _.
Arguments max_tokens {number} _.
Arguments n {number} _.
End CompletionRequest.

Module SearchDocumentsResult.
(** Modelled from the spec: what the retrieval step returns (declared in
    [approach-base.ts]). *)
Record t : Type := { query : string; results : list string; content : string }.
End SearchDocumentsResult.

Module ApproachResponse.
(** The object [run] returns (lines 69 to 73). *)
Record t : Type := { data_points : list string; answer : string; thoughts : string }.
End ApproachResponse.

Module ApproachResponseChunk.
(** The object [runWithStreaming] yields (lines 88 to 92); a field set to
    [undefined] is [None]. *)
Record t : Type :=
  { data_points : option (list string);
    thoughts : option string;
    answer : string }.
End ApproachResponseChunk.

(** Body of the streaming loop: one record per delta, the evidence and the
    diagnostics on the record numbered 0 only. *)
Fixpoint streamingLoop (dataPoints : list string) (thoughts : string) (id : nat)
    (chunks : list (option string)) : list ApproachResponseChunk.t :=
  match chunks with
  | [] => []
  | delta :: rest =>
      {| ApproachResponseChunk.data_points := if Nat.eqb id 0 then Some dataPoints else None;
         ApproachResponseChunk.thoughts := if Nat.eqb id 0 then Some thoughts else None;
         ApproachResponseChunk.answer := Js.nullish delta "" |}
      :: streamingLoop dataPoints thoughts (S id) rest
  end.

Section Pipeline.

(** JavaScript numbers that are not integers stay abstract. *)
Variable number : Type.
Variable number_0 : number.
Variable number_0_7 : number.

(** Calls made to the collaborators, in order. *)
Inductive Call : Type :=
| CallCreate (request : CompletionRequest.t number)
| CallCreateStream (request : CompletionRequest.t number)
| CallSearchDocuments (query : option string) (context : option (ChatApproachContext.t number)).

(** What one request can observe and change: the contents of the
    module-level array [QUERY_PROMPT_FEW_SHOTS] and the calls made so far. *)
Record World : Type := { fewShotsArray : list Message; calls : list Call }.

Definition M (A : Type) : Type := World -> Js.result (A * World).

Definition ret {A : Type} (a : A) : M A := fun w => Js.Ok (a, w).

Definition bind {A B : Type} (m : M A) (k : A -> M B) : M B :=
  fun w =>
    match m w with
    | Js.Ok (a, w') => k a w'
    | Js.Throw e => Js.Throw e
    end.

Definition lift {A : Type} (r : Js.result A) : M A :=
  fun w =>
    match r with
    | Js.Ok a => Js.Ok (a, w)
    | Js.Throw e => Js.Throw e
    end.

Notation "x <- m ;; k" := (bind m (fun x => k))
  (at level 61, m at next level, right associativity).

(** The instance: its model and token limit, and its collaborators.  A
    failure of a collaborator is an exception of theirs that passes through
    unchanged; the functions below are the answers they give. *)
Variable chatGptModel : string.
Variable chatGptTokenLimit : Z.
Variable getTokenCountFromMessages : Message -> string -> Z.
(** [choices[0].message.content] of the completion for a request. *)
Variable createCompletion : CompletionRequest.t number -> option string.
(** [choices[0].delta.content] of each chunk of the stream for a request. *)
Variable createCompletionStream : CompletionRequest.t number -> list (option string).
Variable searchDocuments : option string -> option (ChatApproachContext.t number) -> SearchDocumentsResult.t.
Variable messagesToString : list Message -> string.

Definition create (request : CompletionRequest.t number) : M (option string) :=
  fun w =>
    Js.Ok (createCompletion request,
           {| fewShotsArray := fewShotsArray w;
              calls := calls w ++ [CallCreate request] |}).

Definition createStream (request : CompletionRequest.t number) : M (list (option string)) :=
  fun w =>
    Js.Ok (createCompletionStream request,
           {| fewShotsArray := fewShotsArray w;
              calls := calls w ++ [CallCreateStream request] |}).

Definition search (query : option string) (context : option (ChatApproachContext.t number))
  : M SearchDocumentsResult.t :=
  fun w =>
    Js.Ok (searchDocuments query context,
           {| fewShotsArray := fewShotsArray w;
              calls := calls w ++ [CallSearchDocuments query context] |}).

(** A call of the assembler on the shared array [QUERY_PROMPT_FEW_SHOTS]. *)
Definition getMessagesFromHistoryShared (systemPrompt : string)
    (history : list HistoryMessage) (userContent : string) (maxTokens : Z)
  : M (list Message) :=
  fun w =>
    let r := getMessagesFromHistory getTokenCountFromMessages systemPrompt chatGptModel
               history userContent (fewShotsArray w) maxTokens in
    Js.Ok (returned r, {| fewShotsArray := fewShotsAfter r; calls := calls w |}).

Record BaseRun : Type :=
  { completionRequest : (CompletionRequest.t number);
    dataPoints : list string;
    thoughts : string }.

Definition baseRun (history : list HistoryMessage) (context : option (ChatApproachContext.t number)) : M BaseRun :=
  lastUserText <- lift (lastUser history) ;;
  let userQuery := "Generate search query for: " ++ Js.toString lastUserText in
  messages <- getMessagesFromHistoryShared QUERY_PROMPT_TEMPLATE history userQuery
                (chatGptTokenLimit - Z.of_nat (String.length userQuery)) ;;
  completion <- create {| CompletionRequest.model := chatGptModel;
                          CompletionRequest.messages := messages;
                          CompletionRequest.temperature := number_0;
                          CompletionRequest.max_tokens := 32;
                          CompletionRequest.n := 1 |} ;;
  queryText <- lift (rewrittenQuery completion history) ;;
  found <- search queryText context ;;
  let followUpQuestionsPrompt :=
    match context with
    | Some c =>
        match ChatApproachContext.suggest_followup_questions c with
        | Some true => FOLLOW_UP_QUESTIONS_PROMPT_CONTENT
        | _ => ""
        end
    | None => ""
    end in
  let promptOverride :=
    match context with
    | Some c => ChatApproachContext.prompt_template c
    | None => None
    end in
  let systemMessage := resolveSystemMessage followUpQuestionsPrompt promptOverride in
  lastUserText' <- lift (lastUser history) ;;
  let finalMessages :=
    returned
      (getMessagesFromHistory getTokenCountFromMessages systemMessage chatGptModel history
         (Js.toString lastUserText' ++ LF ++ LF ++ "Sources:" ++ LF
            ++ SearchDocumentsResult.content found)
         [] chatGptTokenLimit) in
  let messageToDisplay := messagesToString messages in
  ret {| completionRequest :=
           {| CompletionRequest.model := chatGptModel;
              CompletionRequest.messages := finalMessages;
              CompletionRequest.temperature :=
                match context with
                | Some c =>
                    match ChatApproachContext.temperature c with
                    | Some t => t
                    | None => number_0_7
                    end
                | None => number_0_7
                end;
              CompletionRequest.max_tokens := 1024;
              CompletionRequest.n := 1 |};
         dataPoints := SearchDocumentsResult.results found;
         thoughts :=
           "Searched for:<br>" ++ SearchDocumentsResult.query found
             ++ "<br><br>Conversations:<br>" ++ Js.replace messageToDisplay LF "<br>" |}.

Definition run (history : list HistoryMessage) (context : option (ChatApproachContext.t number))
  : M ApproachResponse.t :=
  base <- baseRun history context ;;
  chatContent <- create (completionRequest base) ;;
  ret {| ApproachResponse.data_points := dataPoints base;
         ApproachResponse.answer := Js.nullish chatContent "";
         ApproachResponse.thoughts := thoughts base |}.

(** The records the generator yields when it is drained. *)
Definition runWithStreaming (history : list HistoryMessage) (context : option (ChatApproachContext.t number))
  : M (list ApproachResponseChunk.t) :=
  base <- baseRun history context ;;
  chunks <- createStream (completionRequest base) ;;
  ret (streamingLoop (dataPoints base) (thoughts base) 0 chunks).

(** The request of the query-rewrite step for a history [older ++ [h]],
    when the shared few-shot array holds [shots]. *)
Definition queryRewriteRequest (shots : list Message) (older : list HistoryMessage)
    (h : HistoryMessage) : CompletionRequest.t number :=
  {| CompletionRequest.model := chatGptModel;
     CompletionRequest.messages :=
       returned
         (getMessagesFromHistory getTokenCountFromMessages QUERY_PROMPT_TEMPLATE
            chatGptModel (older ++ [h])
            ("Generate search query for: " ++ Js.toString (user h)) shots
            (chatGptTokenLimit
             - Z.of_nat (String.length
                           ("Generate search query for: " ++ Js.toString (user h)))));
     CompletionRequest.temperature := number_0;
     CompletionRequest.max_tokens := 32;
     CompletionRequest.n := 1 |}.

(** The queries handed to the retrieval step, in order. *)
Definition searchedQueries (w : World) : list (option string) :=
  flat_map
    (fun c => match c with CallSearchDocuments q _ => [q] | _ => [] end)
    (calls w).

(** The requests handed to the completion service for a single completion,
    in order. *)
Definition createRequests (w : World) : list (CompletionRequest.t number) :=
  flat_map
    (fun c => match c with CallCreate r => [r] | _ => [] end)
    (calls w).

End Pipeline.

(** ** Specification vocabulary for the pipeline *)

(** The base template with both placeholders replaced by the given texts,
    taken literally. *)
Definition templateWith (followUp injected : string) : string :=
  match Js.splitAtFirst "{follow_up_questions_prompt}" SYSTEM_MESSAGE_CHAT_CONVERSATION with
  | Some (head, tail) =>
      match Js.splitAtFirst "{injected_prompt}" tail with
      | Some (middle, foot) => head ++ followUp ++ middle ++ injected ++ foot
      | None => SYSTEM_MESSAGE_CHAT_CONVERSATION
      end
  | None => SYSTEM_MESSAGE_CHAT_CONVERSATION
  end.

(** The text the three branches of the override policy put in place of
    [{injected_prompt}]. *)
Definition injectedText (promptOverride : option string) : string :=
  match promptOverride with
  | Some p => if Js.startsWith p ">>>" then Js.slice 3 p ++ LF else p
  | None => ""
  end.

(** No dollar sign occurs in the string. *)
Fixpoint dollarFree (s : string) : bool :=
  match s with
  | EmptyString => true
  | String c r => negb (Ascii.eqb c "$") && dollarFree r
  end.

(** Content of the last message whose role is [user]. *)
Definition lastUserMessage (l : list Message) : option string :=
  match rev (filter (fun m => match role m with Role.user => true | _ => false end) l) with
  | m :: _ => Some (content m)
  | [] => None
  end.

(** ** A concrete instance *)

Module Demo.

(** A token meter that charges one token per code unit of content. *)
Definition meter (m : Message) (_ : string) : Z := Z.of_nat (String.length (content m)).

Definition searchDocuments (q : option string) (_ : option (ChatApproachContext.t unit))
  : SearchDocumentsResult.t :=
  {| SearchDocumentsResult.query := Js.toString q;
     SearchDocumentsResult.results := ["info1.txt: Payments are retried once."];
     SearchDocumentsResult.content := "info1.txt: Payments are retried once." |}.

Definition messagesToString (l : list Message) : string :=
  String.concat LF (map content l).

(** The world of a freshly loaded module. *)
Definition world0 : World unit :=
  {| fewShotsArray := QUERY_PROMPT_FEW_SHOTS; calls := [] |}.

Definition baseRun (completion : option string) :=
  baseRun unit tt tt "gpt-35-turbo" 4000 meter (fun _ => completion)
    searchDocuments messagesToString.

Definition runWithStreaming (completion : option string) (stream : list (option string)) :=
  runWithStreaming unit tt tt "gpt-35-turbo" 4000 meter (fun _ => completion)
    (fun _ => stream) searchDocuments messagesToString.

Definition run (completion : option string) :=
  run unit tt tt "gpt-35-turbo" 4000 meter (fun _ => completion)
    searchDocuments messagesToString.

Definition paymentQuestion : HistoryMessage :=
  {| user := Some "What happens if a payment error occurs?"; bot := None |}.

Definition conversation : list HistoryMessage :=
  [ {| user := Some "Hi"; bot := Some "Hello, how can I help?" |};
    {| user := Some "Is breakfast included?"; bot := Some "Yes [info1.txt]" |};
    {| user := Some "Can I bring a pet?"; bot := Some "Small pets only [info2.pdf]" |};
    paymentQuestion ].

End Demo.

(** ** Further vocabulary for the pipeline *)

(** The instructions of the base template, up to the first placeholder. *)
Definition BASE_INSTRUCTIONS : string :=
  match Js.splitAtFirst "{follow_up_questions_prompt}" SYSTEM_MESSAGE_CHAT_CONVERSATION with
  | Some (head, _) => head
  | None => ""
  end.

(** No line feed occurs in the string. *)
Fixpoint lineFeedFree (s : string) : bool :=
  match s with
  | EmptyString => true
  | String c r => negb (Ascii.eqb c (ascii_of_nat 10)) && lineFeedFree r
  end.

(** The record carries the evidence or the diagnostics. *)
Definition carriesMetadata (r : ApproachResponseChunk.t) : bool :=
  match ApproachResponseChunk.data_points r, ApproachResponseChunk.thoughts r with
  | None, None => false
  | _, _ => true
  end.

(** [context?.suggest_followup_questions ? FOLLOW_UP_QUESTIONS_PROMPT_CONTENT : ''] *)
Definition followUpQuestionsPromptOf {number : Type}
    (context : option (ChatApproachContext.t number)) : string :=
  match context with
  | Some c =>
      match ChatApproachContext.suggest_followup_questions c with
      | Some true => FOLLOW_UP_QUESTIONS_PROMPT_CONTENT
      | _ => ""
      end
  | None => ""
  end.

(** [context?.prompt_template] *)
Definition promptOverrideOf {number : Type}
    (context : option (ChatApproachContext.t number)) : option string :=
  match context with
  | Some c => ChatApproachContext.prompt_template c
  | None => None
  end.

Section PipelineVocabulary.

Variable number : Type.
Variable number_0 : number.
Variable chatGptModel : string.
Variable chatGptTokenLimit : Z.
Variable getTokenCountFromMessages : Message -> string -> Z.
Variable createCompletion : CompletionRequest.t number -> option string.

(** The query that reaches the retrieval step for a history [older ++ [h]],
    when the shared few-shot array holds [shots]. *)
Definition queryFor (shots : list Message) (older : list HistoryMessage)
    (h : HistoryMessage) : option string :=
  let completion :=
    createCompletion
      (queryRewriteRequest number number_0 chatGptModel chatGptTokenLimit
         getTokenCountFromMessages shots older h) in
  if Js.strictEq (option_map Js.trim completion) "0" then user h
  else option_map Js.trim completion.

End PipelineVocabulary.

(** ** Ingestion configuration plugin ([plugins/config.ts]) *)

Module Config.

Record AppConfig : Type :=
  { azureStorageAccount : string;
    azureStorageContainer : string;
    azureSearchService : string;
    azureSearchIndex : string;
    azureOpenAiService : string;
    azureOpenAiEmbDeployment : string;
    azureOpenAiEmbeddingModel : string;
    kbFieldsContent : string;
    kbFieldsSourcePage : string }.

(** The character class [[A-Z]]. *)
Definition isCapital (c : ascii) : bool :=
  ((65 <=? nat_of_ascii c) && (nat_of_ascii c <=? 90))%nat.

(** The letters [a] to [z]. *)
Definition isSmall (c : ascii) : bool :=
  ((97 <=? nat_of_ascii c) && (nat_of_ascii c <=? 122))%nat.

(** [str.replaceAll(/[A-Z]/g, (l) => `_${l}`)]: the replacement is computed
    by a function, so it is inserted as it is. *)
Fixpoint underscoreCapitals (str : string) : string :=
  match str with
  | EmptyString => EmptyString
  | String c r =>
      if isCapital c then String "_" (String c (underscoreCapitals r))
      else String c (underscoreCapitals r)
  end.

(** [toUpperCase] of one code unit below 128; the function below is applied
    to the field names of [AppConfig] only, which are made of such units. *)
Definition upper (c : ascii) : ascii :=
  if isSmall c then ascii_of_nat (nat_of_ascii c - 32) else c.

Fixpoint toUpperCase (str : string) : string :=
  match str with
  | EmptyString => EmptyString
  | String c r => String (upper c) (toUpperCase r)
  end.

Definition camelCaseToUpperSnakeCase (str : string) : string :=
  toUpperCase (underscoreCapitals str).

(** [process.env] once [dotenv.config] has run. *)
Definition Env : Type := string -> option string.

(** [value || fallback] on a possibly [undefined] string. *)
Definition orElse (value : option string) (fallback : string) : string :=
  match Js.truthy value with
  | Some s => s
  | None => fallback
  end.

(** The object literal of lines 27 to 37. *)
Definition readConfig (env : Env) : AppConfig :=
  {| azureStorageAccount := orElse (env "AZURE_STORAGE_ACCOUNT") "";
     azureStorageContainer := orElse (env "AZURE_STORAGE_CONTAINER") "";
     azureSearchService := orElse (env "AZURE_SEARCH_SERVICE") "";
     azureSearchIndex := orElse (env "AZURE_SEARCH_INDEX") "";
     azureOpenAiService := orElse (env "AZURE_OPENAI_SERVICE") "";
     azureOpenAiEmbDeployment := orElse (env "AZURE_OPENAI_EMB_DEPLOYMENT") "";
     azureOpenAiEmbeddingModel :=
       orElse (env "AZURE_OPENAI_EMBEDDING_MODEL") "text-embedding-ada-002";
     kbFieldsContent := orElse (env "KB_FIELDS_CONTENT") "content";
     kbFieldsSourcePage := orElse (env "KB_FIELDS_SOURCEPAGE") "sourcepage" |}.

(** [Object.entries(config)]: the fields in the order they are written. *)
Definition entries (config : AppConfig) : list (string * string) :=
  [ ("azureStorageAccount", azureStorageAccount config);
    ("azureStorageContainer", azureStorageContainer config);
    ("azureSearchService", azureSearchService config);
    ("azureSearchIndex", azureSearchIndex config);
    ("azureOpenAiService", azureOpenAiService config);
    ("azureOpenAiEmbDeployment", azureOpenAiEmbDeployment config);
    ("azureOpenAiEmbeddingModel", azureOpenAiEmbeddingModel config);
    ("kbFieldsContent", kbFieldsContent config);
    ("kbFieldsSourcePage", kbFieldsSourcePage config) ].

(** The loop of lines 40 to 46: the message of the first entry whose value
    is falsy, if there is one. *)
Fixpoint firstUnset (l : list (string * string)) : option string :=
  match l with
  | [] => None
  | (key, value) :: rest =>
      match value with
      | EmptyString =>
          Some (camelCaseToUpperSnakeCase key ++ " environment variable must be set")
      | _ => firstUnset rest
      end
  end.

(** What the plugin leaves behind: the lines written to the console and to
    the error log, and either the decorated [config] or the message of the
    error thrown. *)
Inductive Outcome : Type :=
| Decorated (config : AppConfig)
| Thrown (message : string).

Record Loaded : Type :=
  { consoleLog : list string; errorLog : list string; outcome : Outcome }.

(** The plugin body, for the resolved path of the [.env] file and the
    environment it finds after [dotenv.config]. *)
Definition plugin (envPath : string) (env : Env) : Loaded :=
  let config := readConfig env in
  match firstUnset (entries config) with
  | Some message =>
      {| consoleLog := [ "Loading .env config from " ++ envPath ++ "..." ];
         errorLog := [ message ];
         outcome := Thrown message |}
  | None =>
      {| consoleLog := [ "Loading .env config from " ++ envPath ++ "..." ];
         errorLog := [];
         outcome := Decorated config |}
  end.

(** The six variables read without a usable fallback (lines 28 to 33), each
    with the field it fills, in the order of the object literal. *)
Definition REQUIRED : list (string * string) :=
  [ ("AZURE_STORAGE_ACCOUNT", "azureStorageAccount");
    ("AZURE_STORAGE_CONTAINER", "azureStorageContainer");
    ("AZURE_SEARCH_SERVICE", "azureSearchService");
    ("AZURE_SEARCH_INDEX", "azureSearchIndex");
    ("AZURE_OPENAI_SERVICE", "azureOpenAiService");
    ("AZURE_OPENAI_EMB_DEPLOYMENT", "azureOpenAiEmbDeployment") ].

(** The variable is set to a non-empty value. *)
Definition isSet (env : Env) (name : string) : bool :=
  match Js.truthy (env name) with
  | Some _ => true
  | None => false
  end.

(** Number of characters of the class [[A-Z]]. *)
Fixpoint capitals (str : string) : nat :=
  match str with
  | EmptyString => 0
  | String c r => (if isCapital c then 1 else 0) + capitals r
  end.

(** None of the letters [a] to [z] occurs. *)
Fixpoint noSmall (str : string) : bool :=
  match str with
  | EmptyString => true
  | String c r => negb (isSmall c) && noSmall r
  end.

(** Every code unit is below 128. *)
Fixpoint below128 (str : string) : bool :=
  match str with
  | EmptyString => true
  | String c r => (nat_of_ascii c <? 128)%nat && below128 r
  end.

(** An environment given as a list of bindings, the first one for a name
    winning. *)
Fixpoint envOf (bindings : list (string * string)) : Env :=
  fun name =>
    match bindings with
    | [] => None
    | (k, v) :: rest => if String.eqb k name then Some v else envOf rest name
    end.

End Config.

(** ** Further concrete inputs *)

Module Sample.

(** A rendering of a prompt over three lines. *)
Definition render (_ : list Message) : string :=
  "system: rules" ++ LF ++ "user: question" ++ LF ++ "assistant: answer".

(** A caller asking for follow-up questions and injecting one instruction. *)
Definition frenchContext : option (ChatApproachContext.t unit) :=
  Some {| ChatApproachContext.suggest_followup_questions := Some true;
          ChatApproachContext.prompt_template := Some ">>>Answer in French.";
          ChatApproachContext.temperature := None |}.

(** An environment with the six required variables. *)
Definition fullEnv : Config.Env :=
  Config.envOf
    [ ("AZURE_STORAGE_ACCOUNT", "store");
      ("AZURE_STORAGE_CONTAINER", "content");
      ("AZURE_SEARCH_SERVICE", "search");
      ("AZURE_SEARCH_INDEX", "kbindex");
      ("AZURE_OPENAI_SERVICE", "openai");
      ("AZURE_OPENAI_EMB_DEPLOYMENT", "embedding") ].

(** An environment that sets [AZURE_OPEN_AI_SERVICE] where the plugin reads
    [AZURE_OPENAI_SERVICE]. *)
Definition misnamedEnv : Config.Env :=
  Config.envOf
    [ ("AZURE_STORAGE_ACCOUNT", "store");
      ("AZURE_STORAGE_CONTAINER", "content");
      ("AZURE_SEARCH_SERVICE", "search");
      ("AZURE_SEARCH_INDEX", "kbindex");
      ("AZURE_OPEN_AI_SERVICE", "openai");
      ("AZURE_OPENAI_EMB_DEPLOYMENT", "embedding") ].

End Sample.

(** * Properties *)

Local Open Scope list_scope.

(** ** The message builder and the assembler *)

Section AssemblerFacts.

Variable cost : Message -> string -> Z.

Lemma splice_at_length {A : Type} (p r : list A) (x : A) :
  MessageBuilder.splice (length p) x (p ++ r) = p ++ x :: r.
Proof.
  unfold MessageBuilder.splice.
  rewrite firstn_app, skipn_app, Nat.sub_diag, firstn_all, skipn_all.
  simpl. now rewrite app_nil_r.
Qed.

Lemma tokensOf_app (m : string) (l1 l2 : list Message) :
  tokensOf cost m (l1 ++ l2) = (tokensOf cost m l1 + tokensOf cost m l2)%Z.
Proof.
  induction l1 as [|x l1 IH]; simpl; [reflexivity | rewrite IH; lia].
Qed.

Lemma tokensOf_rev (m : string) (l : list Message) :
  tokensOf cost m (rev l) = tokensOf cost m l.
Proof.
  induction l as [|x l IH]; simpl; [reflexivity |].
  rewrite tokensOf_app, IH. simpl. lia.
Qed.

Lemma message_eta (m : Message) : {| role := role m; content := content m |} = m.
Proof. now destruct m. Qed.

Lemma appendShots_spec (shots : list Message) :
  forall (b : MessageBuilder.t) (s : Message) (rest : list Message),
    MessageBuilder.messages b = s :: rest ->
    MessageBuilder.messages (appendShots cost shots b) = s :: rev shots ++ rest
    /\ MessageBuilder.model (appendShots cost shots b) = MessageBuilder.model b
    /\ MessageBuilder.tokens (appendShots cost shots b)
       = (MessageBuilder.tokens b + tokensOf cost (MessageBuilder.model b) shots)%Z.
Proof.
  induction shots as [|shot shots IH]; intros b s rest Hb; simpl.
  - repeat split; [assumption | lia].
  - destruct (IH (MessageBuilder.appendMessage cost (role shot) (content shot) 1 b)
                s (shot :: rest)) as (Hm & Hmod & Htok).
    + simpl. rewrite Hb. unfold MessageBuilder.splice. simpl.
      now rewrite message_eta.
    + unfold appendShots in *. simpl in *. rewrite Hm, Hmod, Htok.
      rewrite message_eta, <- app_assoc. simpl.
      repeat split; lia.
Qed.

Lemma appendTurn_spec (p r : list Message) (h : HistoryMessage) (b : MessageBuilder.t) :
  MessageBuilder.messages b = p ++ r ->
  MessageBuilder.messages (appendTurn cost (length p) h b) = p ++ turnMessages h ++ r
  /\ MessageBuilder.model (appendTurn cost (length p) h b) = MessageBuilder.model b
  /\ MessageBuilder.tokens (appendTurn cost (length p) h b)
     = (MessageBuilder.tokens b + tokensOf cost (MessageBuilder.model b) (turnMessages h))%Z.
Proof.
  intros Hb. unfold appendTurn, turnMessages.
  destruct (Js.truthy (bot h)) as [tb|], (Js.truthy (user h)) as [tu|]; simpl;
    rewrite ?Hb, ?splice_at_length; simpl; repeat split; try lia.
Qed.

Lemma walkHistory_spec (p : list Message) (maxTokens : Z) (turns : list HistoryMessage) :
  forall (b : MessageBuilder.t) (r : list Message),
    MessageBuilder.messages b = p ++ r ->
    MessageBuilder.messages (walkHistory cost (length p) maxTokens turns b)
    = p ++ flat_map turnMessages
             (rev (firstn (walkedTurns cost (length p) maxTokens turns b) turns)) ++ r.
Proof.
  induction turns as [|h rest IH]; intros b r Hb.
  - simpl. assumption.
  - destruct (appendTurn_spec p r h b Hb) as (Hm & _ & _).
    cbn [walkHistory walkedTurns].
    destruct (MessageBuilder.tokens (appendTurn cost (length p) h b) >? maxTokens)%Z.
    + simpl. now rewrite app_nil_r.
    + rewrite (IH _ _ Hm). cbn [firstn rev].
      rewrite flat_map_app. simpl. now rewrite app_nil_r, <- app_assoc.
Qed.

Lemma walkedTurns_le_length (i : nat) (maxTokens : Z) (turns : list HistoryMessage) :
  forall b, walkedTurns cost i maxTokens turns b <= length turns.
Proof.
  induction turns as [|h rest IH]; intros b; simpl; [lia |].
  destruct (_ >? _)%Z; [lia | specialize (IH (appendTurn cost i h b)); lia].
Qed.

Lemma walkedTurns_pos (i : nat) (maxTokens : Z) (turns : list HistoryMessage) b :
  turns <> [] -> 1 <= walkedTurns cost i maxTokens turns b.
Proof.
  destruct turns as [|h rest]; [congruence | intros _; simpl].
  destruct (_ >? _)%Z; lia.
Qed.

(** The loop leaves early exactly at the first turn after which the running
    total is above the budget. *)
Lemma walkedTurns_budget (p : list Message) (maxTokens : Z) (turns : list HistoryMessage) :
  forall (b : MessageBuilder.t) (r : list Message),
    MessageBuilder.messages b = p ++ r ->
    let k := walkedTurns cost (length p) maxTokens turns b in
    let after j :=
      (MessageBuilder.tokens b
       + tokensOf cost (MessageBuilder.model b) (flat_map turnMessages (firstn j turns)))%Z in
    (k < length turns -> (maxTokens < after k)%Z)
    /\ (forall j, 1 <= j < k -> (after j <= maxTokens)%Z).
Proof.
  induction turns as [|h rest IH]; intros b r Hb; cbn zeta.
  - simpl. split; intros; lia.
  - destruct (appendTurn_spec p r h b Hb) as (Hm & Hmod & Htok).
    cbn [walkedTurns].
    destruct (MessageBuilder.tokens (appendTurn cost (length p) h b) >? maxTokens)%Z eqn:E.
    + split; [intros _ | intros j Hj; lia].
      simpl. rewrite app_nil_r. lia.
    + destruct (IH _ _ Hm) as (Hstop & Hbelow). cbn zeta in Hstop, Hbelow.
      rewrite Hmod, Htok in Hstop, Hbelow.
      split.
      * intros Hk. simpl in Hk. cbn [firstn flat_map].
        rewrite tokensOf_app. apply Nat.succ_lt_mono in Hk.
        specialize (Hstop Hk). lia.
      * intros j Hj. destruct j as [|j]; [lia |].
        cbn [firstn flat_map]. rewrite tokensOf_app.
        destruct j as [|j].
        -- simpl. lia.
        -- assert (Hj' : 1 <= S j < walkedTurns cost (length p) maxTokens rest
                                      (appendTurn cost (length p) h b)) by lia.
           specialize (Hbelow _ Hj'). lia.
Qed.

Lemma walkedTurns_monotone (i : nat) (maxTokens1 maxTokens2 : Z)
    (turns : list HistoryMessage) :
  (maxTokens1 <= maxTokens2)%Z ->
  forall b, walkedTurns cost i maxTokens1 turns b <= walkedTurns cost i maxTokens2 turns b.
Proof.
  intros Hle. induction turns as [|h rest IH]; intros b; simpl; [lia |].
  destruct (MessageBuilder.tokens (appendTurn cost i h b) >? maxTokens1)%Z eqn:E1,
           (MessageBuilder.tokens (appendTurn cost i h b) >? maxTokens2)%Z eqn:E2;
    try lia.
  specialize (IH (appendTurn cost i h b)). lia.
Qed.

(** The builder as the history loop finds it: system prompt, few-shots in
    the order of the caller's list, trailing user content. *)
Lemma builder_before_history (systemPrompt chatModel userContent : string)
    (fewShots : list Message) :
  let b := MessageBuilder.appendMessage cost Role.user userContent
             (length (rev fewShots) + 1)
             (appendShots cost (rev fewShots)
                (MessageBuilder.new cost systemPrompt chatModel)) in
  MessageBuilder.messages b
  = ({| role := Role.system; content := systemPrompt |} :: fewShots)
      ++ [ {| role := Role.user; content := userContent |} ]
  /\ MessageBuilder.model b = chatModel
  /\ MessageBuilder.tokens b
     = tokensOf cost chatModel
         ({| role := Role.system; content := systemPrompt |}
            :: fewShots ++ [ {| role := Role.user; content := userContent |} ]).
Proof.
  cbn zeta.
  destruct (appendShots_spec (rev fewShots)
              (MessageBuilder.new cost systemPrompt chatModel)
              {| role := Role.system; content := systemPrompt |} [] eq_refl)
    as (Hm & Hmod & Htok).
  rewrite rev_involutive, app_nil_r in Hm.
  unfold MessageBuilder.appendMessage at 1 2 3. cbn [MessageBuilder.messages
    MessageBuilder.model MessageBuilder.tokens].
  rewrite Hm, Hmod, Htok. cbn [MessageBuilder.new MessageBuilder.model MessageBuilder.tokens].
  replace (length (rev fewShots) + 1)
    with (length ({| role := Role.system; content := systemPrompt |} :: fewShots))
    by (simpl; rewrite length_rev; lia).
  rewrite <- (app_nil_r ({| role := Role.system; content := systemPrompt |} :: fewShots)) at 2.
  rewrite splice_at_length.
  repeat split.
  cbn [tokensOf fold_right]. fold (tokensOf cost chatModel).
  change (fold_right (fun m acc => (cost m chatModel + acc)%Z) 0%Z
            (fewShots ++ [ {| role := Role.user; content := userContent |} ]))
    with (tokensOf cost chatModel
            (fewShots ++ [ {| role := Role.user; content := userContent |} ])).
  rewrite tokensOf_app, tokensOf_rev. simpl. lia.
Qed.

(** Closed form of the returned sequence. *)
Lemma getMessagesFromHistory_returned (systemPrompt chatModel : string)
    (history : list HistoryMessage) (userContent : string)
    (fewShots : list Message) (maxTokens : Z) :
  returned (getMessagesFromHistory cost systemPrompt chatModel history userContent
              fewShots maxTokens)
  = {| role := Role.system; content := systemPrompt |}
      :: fewShots
      ++ flat_map turnMessages
           (rev (firstn (includedTurns cost systemPrompt chatModel history userContent
                           fewShots maxTokens)
                        (rev (removelast history))))
      ++ [ {| role := Role.user; content := userContent |} ].
Proof.
  unfold getMessagesFromHistory, includedTurns. cbn zeta. cbn [returned].
  destruct (builder_before_history systemPrompt chatModel userContent fewShots)
    as (Hm & _ & _). cbn zeta in Hm.
  assert (Hlen : length (rev fewShots) + 1
                 = length ({| role := Role.system; content := systemPrompt |} :: fewShots))
    by (simpl; rewrite length_rev; lia).
  rewrite Hlen in *.
  rewrite (walkHistory_spec _ maxTokens _ _ _ Hm).
  rewrite (map_ext _ (fun m => m) message_eta), map_id.
  reflexivity.
Qed.

Lemma getMessagesFromHistory_fewShotsAfter (systemPrompt chatModel : string)
    (history : list HistoryMessage) (userContent : string)
    (fewShots : list Message) (maxTokens : Z) :
  fewShotsAfter (getMessagesFromHistory cost systemPrompt chatModel history userContent
                   fewShots maxTokens) = rev fewShots.
Proof. reflexivity. Qed.

End AssemblerFacts.

Lemma nth_error_snoc_last {A : Type} (l : list A) (x : A) :
  nth_error (l ++ [x]) (length (l ++ [x]) - 1) = Some x.
Proof.
  rewrite length_app. simpl.
  replace (length l + 1 - 1) with (length l) by lia.
  rewrite nth_error_app2, Nat.sub_diag by lia. reflexivity.
Qed.

Lemma flat_map_length_firstn_le {A B : Type} (f : A -> list B) (l : list A) (j k : nat) :
  j <= k ->
  length (flat_map f (rev (firstn j l))) <= length (flat_map f (rev (firstn k l))).
Proof.
  intros Hjk.
  assert (Hrev : forall l0 : list A,
             length (flat_map f (rev l0)) = length (flat_map f l0)).
  { induction l0 as [|a l0 IH]; simpl; [reflexivity |].
    rewrite flat_map_app, !length_app, IH. simpl. rewrite app_nil_r. lia. }
  rewrite !Hrev.
  rewrite <- (firstn_skipn j (firstn k l)), firstn_firstn, Nat.min_l by assumption.
  rewrite flat_map_app, length_app. lia.
Qed.

(** C1: whatever the history and the budget, the sequence the assembler
    returns starts with the system prompt (position 0) and ends with the
    trailing user content; it has at least these two elements. *)
Theorem system_prompt_first_user_content_last
    (cost : Message -> string -> Z) (systemPrompt chatModel : string)
    (history : list HistoryMessage) (userContent : string)
    (fewShots : list Message) (maxTokens : Z) :
  nth_error
    (returned (getMessagesFromHistory cost systemPrompt chatModel history userContent
                 fewShots maxTokens)) 0
  = Some {| role := Role.system; content := systemPrompt |}
  /\ nth_error
       (returned (getMessagesFromHistory cost systemPrompt chatModel history userContent
                    fewShots maxTokens))
       (length (returned (getMessagesFromHistory cost systemPrompt chatModel history
                            userContent fewShots maxTokens)) - 1)
     = Some {| role := Role.user; content := userContent |}
  /\ 2 <= length (returned (getMessagesFromHistory cost systemPrompt chatModel history
                              userContent fewShots maxTokens)).
Proof.
  rewrite getMessagesFromHistory_returned.
  set (inner := flat_map turnMessages _).
  split; [reflexivity |].
  rewrite app_assoc, app_comm_cons.
  split; [apply nth_error_snoc_last |].
  rewrite length_app. simpl. lia.
Qed.

(** C2: when the history walk ends before the oldest turn, the running
    total is above [maxTokens] after the last turn it inserted and was not
    above it after any earlier one; that last turn, the one that crossed the
    budget, is part of the returned sequence, which is returned normally. *)
Theorem overflowing_turn_is_included
    (cost : Message -> string -> Z) (systemPrompt chatModel : string)
    (history : list HistoryMessage) (userContent : string)
    (fewShots : list Message) (maxTokens : Z) :
  includedTurns cost systemPrompt chatModel history userContent fewShots maxTokens
    < length (rev (removelast history)) ->
  exists crossing : HistoryMessage,
    nth_error (rev (removelast history))
      (includedTurns cost systemPrompt chatModel history userContent fewShots maxTokens - 1)
    = Some crossing
    /\ (maxTokens
        < costAfter cost systemPrompt chatModel userContent fewShots
            (rev (removelast history))
            (includedTurns cost systemPrompt chatModel history userContent fewShots
               maxTokens))%Z
    /\ (forall j,
          1 <= j < includedTurns cost systemPrompt chatModel history userContent fewShots
                     maxTokens ->
          (costAfter cost systemPrompt chatModel userContent fewShots
             (rev (removelast history)) j <= maxTokens)%Z)
    /\ In crossing
         (firstn (includedTurns cost systemPrompt chatModel history userContent fewShots
                    maxTokens)
                 (rev (removelast history)))
    /\ returned (getMessagesFromHistory cost systemPrompt chatModel history userContent
                   fewShots maxTokens)
       = {| role := Role.system; content := systemPrompt |}
           :: fewShots
           ++ flat_map turnMessages
                (rev (firstn (includedTurns cost systemPrompt chatModel history userContent
                                fewShots maxTokens)
                             (rev (removelast history))))
           ++ [ {| role := Role.user; content := userContent |} ].
Proof.
  intros Hearly.
  set (turns := rev (removelast history)) in *.
  set (k := includedTurns cost systemPrompt chatModel history userContent fewShots maxTokens)
    in *.
  assert (Hturns : turns <> []) by (intros E; rewrite E in Hearly; simpl in Hearly; lia).
  destruct (builder_before_history cost systemPrompt chatModel userContent fewShots)
    as (Hm & Hmod & Htok). cbn zeta in Hm, Hmod, Htok.
  assert (Hlen : length (rev fewShots) + 1
                 = length ({| role := Role.system; content := systemPrompt |} :: fewShots))
    by (simpl; rewrite length_rev; lia).
  assert (Hk : k = walkedTurns cost
                     (length ({| role := Role.system; content := systemPrompt |} :: fewShots))
                     maxTokens turns
                     (MessageBuilder.appendMessage cost Role.user userContent
                        (length ({| role := Role.system; content := systemPrompt |}
                                   :: fewShots))
                        (appendShots cost (rev fewShots)
                           (MessageBuilder.new cost systemPrompt chatModel)))).
  { unfold k, includedTurns. cbn zeta. fold turns. now rewrite Hlen. }
  rewrite Hlen in Hm, Hmod, Htok.
  assert (Hpos : 1 <= k) by (rewrite Hk; now apply walkedTurns_pos).
  destruct (walkedTurns_budget cost _ maxTokens turns _ _ Hm) as (Hstop & Hbelow).
  cbn zeta in Hstop, Hbelow. rewrite <- Hk, Hmod, Htok in Hstop, Hbelow.
  destruct (nth_error turns (k - 1)) as [crossing|] eqn:Hnth.
  2:{ apply nth_error_None in Hnth. lia. }
  exists crossing. split; [reflexivity |].
  split; [exact (Hstop Hearly) |].
  split; [exact Hbelow |].
  split.
  - apply nth_error_In with (n := k - 1).
    rewrite nth_error_firstn.
    destruct (Nat.ltb_spec (k - 1) k); [assumption | lia].
  - apply getMessagesFromHistory_returned.
Qed.

(** C3: the few-shot messages appear in the returned sequence in the order
    of the caller's list, right after the system prompt, for every
    [fewShots] list and so for every non-empty one. *)
Theorem few_shots_forward_after_system
    (cost : Message -> string -> Z) (systemPrompt chatModel : string)
    (history : list HistoryMessage) (userContent : string)
    (fewShots : list Message) (maxTokens : Z) :
  firstn (S (length fewShots))
    (returned (getMessagesFromHistory cost systemPrompt chatModel history userContent
                 fewShots maxTokens))
  = {| role := Role.system; content := systemPrompt |} :: fewShots.
Proof.
  rewrite getMessagesFromHistory_returned.
  cbn [firstn]. f_equal.
  rewrite firstn_app, Nat.sub_diag, firstn_all. simpl. apply app_nil_r.
Qed.

(** C4: with every other input fixed, a larger budget never includes fewer
    history turns, and never returns a shorter sequence. *)
Theorem included_turns_monotone
    (cost : Message -> string -> Z) (systemPrompt chatModel : string)
    (history : list HistoryMessage) (userContent : string)
    (fewShots : list Message) (maxTokens1 maxTokens2 : Z) :
  (maxTokens1 <= maxTokens2)%Z ->
  includedTurns cost systemPrompt chatModel history userContent fewShots maxTokens1
  <= includedTurns cost systemPrompt chatModel history userContent fewShots maxTokens2
  /\ length (returned (getMessagesFromHistory cost systemPrompt chatModel history
                         userContent fewShots maxTokens1))
     <= length (returned (getMessagesFromHistory cost systemPrompt chatModel history
                            userContent fewShots maxTokens2)).
Proof.
  intros Hle.
  assert (Hk : includedTurns cost systemPrompt chatModel history userContent fewShots
                 maxTokens1
               <= includedTurns cost systemPrompt chatModel history userContent fewShots
                    maxTokens2)
    by (unfold includedTurns; cbn zeta; now apply walkedTurns_monotone).
  split; [exact Hk |].
  rewrite !getMessagesFromHistory_returned.
  simpl. rewrite !length_app.
  pose proof (flat_map_length_firstn_le turnMessages (rev (removelast history)) _ _ Hk).
  lia.
Qed.

(** C5: two successive calls with the same inputs and the same [fewShots]
    array: the first call leaves the array reversed, so the second call
    returns the few-shots in the opposite order. *)
Theorem second_call_sees_reversed_few_shots :
  let first :=
    getMessagesFromHistory Demo.meter "S" "gpt-35-turbo" [] "Q" QUERY_PROMPT_FEW_SHOTS 4096 in
  let second :=
    getMessagesFromHistory Demo.meter "S" "gpt-35-turbo" [] "Q" (fewShotsAfter first) 4096 in
  returned first
  = {| role := Role.system; content := "S" |}
      :: QUERY_PROMPT_FEW_SHOTS ++ [ {| role := Role.user; content := "Q" |} ]
  /\ fewShotsAfter first = rev QUERY_PROMPT_FEW_SHOTS
  /\ returned second
     = {| role := Role.system; content := "S" |}
         :: rev QUERY_PROMPT_FEW_SHOTS ++ [ {| role := Role.user; content := "Q" |} ]
  /\ returned first <> returned second.
Proof.
  cbn zeta. repeat split; try reflexivity.
  vm_compute. discriminate.
Qed.

(** ** String primitives *)

Lemma getSubstitution_dollarFree (matched before after template : string) :
  dollarFree template = true ->
  Js.getSubstitution matched before after template = template.
Proof.
  induction template as [|c r IH]; intros H; [reflexivity |].
  simpl in H. apply andb_prop in H. destruct H as (Hc & Hr).
  specialize (IH Hr).
  destruct (Ascii.eqb_spec c "$"%char) as [->|Hne]; [discriminate |].
  cbn [Js.getSubstitution].
  destruct c as [[] [] [] [] [] [] [] []]; try (rewrite IH; reflexivity).
  congruence.
Qed.

Lemma dollarFree_app (s t : string) :
  dollarFree (s ++ t) = dollarFree s && dollarFree t.
Proof.
  induction s as [|c s IH]; simpl; [reflexivity | now rewrite IH, andb_assoc].
Qed.

Lemma dollarFree_slice (n : nat) :
  forall s, dollarFree s = true -> dollarFree (Js.slice n s) = true.
Proof.
  induction n as [|n IH]; intros [|c s] H; simpl; auto.
  simpl in H. apply andb_prop in H. now apply IH.
Qed.

(** Where the override carries no dollar sign, the three branches put the
    override text, taken literally, in place of the placeholder. *)
Lemma resolveSystemMessage_dollarFree (suggest : bool) (promptOverride : option string) :
  dollarFree (injectedText promptOverride) = true ->
  resolveSystemMessage (if suggest then FOLLOW_UP_QUESTIONS_PROMPT_CONTENT else "")
    promptOverride
  = templateWith (if suggest then FOLLOW_UP_QUESTIONS_PROMPT_CONTENT else "")
      (injectedText promptOverride).
Proof.
  intros Hfree.
  assert (Hgen : forall x : string,
             dollarFree x = true ->
             Js.replace
               (Js.replace SYSTEM_MESSAGE_CHAT_CONVERSATION "{follow_up_questions_prompt}"
                  (if suggest then FOLLOW_UP_QUESTIONS_PROMPT_CONTENT else ""))
               "{injected_prompt}" x
             = templateWith (if suggest then FOLLOW_UP_QUESTIONS_PROMPT_CONTENT else "") x).
  { intros x Hx. unfold Js.replace at 1.
    destruct suggest.
    - remember (Js.splitAtFirst "{injected_prompt}"
                  (Js.replace SYSTEM_MESSAGE_CHAT_CONVERSATION
                     "{follow_up_questions_prompt}" FOLLOW_UP_QUESTIONS_PROMPT_CONTENT))
        as sp eqn:E.
      vm_compute in E. subst sp.
      rewrite getSubstitution_dollarFree by assumption.
      unfold templateWith.
      remember (Js.splitAtFirst "{follow_up_questions_prompt}"
                  SYSTEM_MESSAGE_CHAT_CONVERSATION) as sp eqn:E.
      vm_compute in E. subst sp. cbv iota beta.
      match goal with
      | |- context [Js.splitAtFirst ?p ?t] =>
          remember (Js.splitAtFirst p t) as sp eqn:E; vm_compute in E; subst sp
      end.
      reflexivity.
    - remember (Js.splitAtFirst "{injected_prompt}"
                  (Js.replace SYSTEM_MESSAGE_CHAT_CONVERSATION
                     "{follow_up_questions_prompt}" "")) as sp eqn:E.
      vm_compute in E. subst sp.
      rewrite getSubstitution_dollarFree by assumption.
      unfold templateWith.
      remember (Js.splitAtFirst "{follow_up_questions_prompt}"
                  SYSTEM_MESSAGE_CHAT_CONVERSATION) as sp eqn:E.
      vm_compute in E. subst sp. cbv iota beta.
      match goal with
      | |- context [Js.splitAtFirst ?p ?t] =>
          remember (Js.splitAtFirst p t) as sp eqn:E; vm_compute in E; subst sp
      end.
      reflexivity. }
  unfold resolveSystemMessage.
  destruct promptOverride as [p|]; cbn [injectedText Js.toString Js.truthy] in *.
  - destruct (Js.startsWith p ">>>") eqn:Hpre.
    + now apply Hgen.
    + destruct p as [|c p]; [reflexivity || now apply Hgen | now apply Hgen].
  - now apply Hgen.
Qed.

(** C7: the three branches of the prompt override policy, evaluated on
    overrides that carry a dollar sign.  [String.prototype.replace] expands
    [$$], [$&], [$`] and [$'] in its replacement text, so the placeholder
    does not receive the override as written: [$$] arrives as a single
    dollar sign and [$&] as the placeholder itself, with or without the
    [>>>] prefix. *)
Theorem override_with_dollar_is_rewritten :
  resolveSystemMessage "" (Some "Prices are in US$$") = templateWith "" "Prices are in US$"
  /\ resolveSystemMessage "" (Some "Prices are in US$$")
     <> templateWith "" "Prices are in US$$"
  /\ resolveSystemMessage "" (Some ">>>Call it $&")
     = templateWith "" ("Call it {injected_prompt}" ++ LF)
  /\ resolveSystemMessage "" (Some ">>>Call it $&")
     <> templateWith "" ("Call it $&" ++ LF)
  /\ resolveSystemMessage "" None = templateWith "" "".
Proof.
  repeat split; try (vm_compute; reflexivity); vm_compute; discriminate.
Qed.

(** ** The pipeline *)

Lemma lastUser_snoc (older : list HistoryMessage) (h : HistoryMessage) :
  lastUser (older ++ [h]) = Js.Ok (user h).
Proof.
  unfold lastUser. now rewrite nth_error_snoc_last.
Qed.

Lemma rewrittenQuery_snoc (completion : option string)
    (older : list HistoryMessage) (h : HistoryMessage) :
  rewrittenQuery completion (older ++ [h])
  = Js.Ok (if Js.strictEq (option_map Js.trim completion) "0" then user h
           else option_map Js.trim completion).
Proof.
  unfold rewrittenQuery. rewrite lastUser_snoc.
  now destruct (Js.strictEq _ _).
Qed.

Lemma streamingLoop_nth (dataPoints : list string) (thoughts : string)
    (chunks : list (option string)) :
  forall id i,
    nth_error (streamingLoop dataPoints thoughts id chunks) i
    = option_map
        (fun delta =>
           {| ApproachResponseChunk.data_points :=
                if Nat.eqb (id + i) 0 then Some dataPoints else None;
              ApproachResponseChunk.thoughts :=
                if Nat.eqb (id + i) 0 then Some thoughts else None;
              ApproachResponseChunk.answer := Js.nullish delta "" |})
        (nth_error chunks i).
Proof.
  induction chunks as [|delta rest IH]; intros id i.
  - destruct i; reflexivity.
  - destruct i as [|i]; simpl.
    + now rewrite Nat.add_0_r.
    + rewrite IH. now rewrite Nat.add_succ_r.
Qed.

Lemma streamingLoop_answers (dataPoints : list string) (thoughts : string)
    (chunks : list (option string)) :
  forall id,
    map ApproachResponseChunk.answer (streamingLoop dataPoints thoughts id chunks)
    = map (fun delta => Js.nullish delta "") chunks.
Proof.
  induction chunks as [|delta rest IH]; intros id; simpl; [reflexivity | now rewrite IH].
Qed.

Lemma streamingLoop_length (dataPoints : list string) (thoughts : string)
    (chunks : list (option string)) (id : nat) :
  length (streamingLoop dataPoints thoughts id chunks) = length chunks.
Proof.
  rewrite <- (length_map ApproachResponseChunk.answer), streamingLoop_answers.
  apply length_map.
Qed.

Lemma lastUserMessage_snoc (l : list Message) (c : string) :
  lastUserMessage (l ++ [ {| role := Role.user; content := c |} ]) = Some c.
Proof.
  unfold lastUserMessage. rewrite filter_app, rev_app_distr. reflexivity.
Qed.

Section PipelineFacts.

Variable number : Type.
Variable number_0 number_0_7 : number.
Variable chatGptModel : string.
Variable chatGptTokenLimit : Z.
Variable cost : Message -> string -> Z.
Variable createCompletion : CompletionRequest.t number -> option string.
Variable createCompletionStream : CompletionRequest.t number -> list (option string).
Variable searchDocuments :
  option string -> option (ChatApproachContext.t number) -> SearchDocumentsResult.t.
Variable messagesToString : list Message -> string.

(** On a non-empty history [baseRun] returns; it reverses the shared
    few-shot array and makes two calls: the query-rewrite completion, then
    the search with the rewritten query. *)
Lemma baseRun_snoc (older : list HistoryMessage) (h : HistoryMessage)
    (context : option (ChatApproachContext.t number)) (w : World number) :
  exists base : BaseRun number,
    baseRun number number_0 number_0_7 chatGptModel chatGptTokenLimit cost
      createCompletion searchDocuments messagesToString (older ++ [h]) context w
    = Js.Ok
        (base,
         {| fewShotsArray := rev (fewShotsArray number w);
            calls :=
              calls number w
              ++ [ CallCreate number
                     (queryRewriteRequest number number_0 chatGptModel chatGptTokenLimit
                        cost (fewShotsArray number w) older h);
                   CallSearchDocuments number
                     (if Js.strictEq
                           (option_map Js.trim
                              (createCompletion
                                 (queryRewriteRequest number number_0 chatGptModel
                                    chatGptTokenLimit cost (fewShotsArray number w)
                                    older h))) "0"
                      then user h
                      else option_map Js.trim
                             (createCompletion
                                (queryRewriteRequest number number_0 chatGptModel
                                   chatGptTokenLimit cost (fewShotsArray number w)
                                   older h)))
                     context ] |}).
Proof.
  unfold baseRun, bind, lift.
  rewrite lastUser_snoc.
  unfold getMessagesFromHistoryShared, create.
  cbn [fewShotsArray calls].
  rewrite rewrittenQuery_snoc.
  unfold search, ret. cbn [fewShotsArray calls].
  eexists. rewrite <- app_assoc. reflexivity.
Qed.

Lemma searchedQueries_app (w : World number) (l : list (Call number)) (shots : list Message) :
  searchedQueries number {| fewShotsArray := shots; calls := calls number w ++ l |}
  = searchedQueries number w
    ++ searchedQueries number {| fewShotsArray := shots; calls := l |}.
Proof. unfold searchedQueries. cbn [calls]. apply flat_map_app. Qed.

Lemma createRequests_app (w : World number) (l : list (Call number)) (shots : list Message) :
  createRequests number {| fewShotsArray := shots; calls := calls number w ++ l |}
  = createRequests number w
    ++ createRequests number {| fewShotsArray := shots; calls := l |}.
Proof. unfold createRequests. cbn [calls]. apply flat_map_app. Qed.

Lemma queryRewriteRequest_last (shots : list Message) (older : list HistoryMessage)
    (h : HistoryMessage) :
  exists front : list Message,
    CompletionRequest.messages
      (queryRewriteRequest number number_0 chatGptModel chatGptTokenLimit cost shots older h)
    = front ++ [ {| role := Role.user;
                    content := ("Generate search query for: " ++ Js.toString (user h))%string |} ].
Proof.
  unfold queryRewriteRequest. cbn [CompletionRequest.messages].
  rewrite getMessagesFromHistory_returned.
  match goal with
  | |- exists _, ?a :: ?b ++ ?c ++ ?d = _ => exists (a :: b ++ c)
  end.
  rewrite <- app_comm_cons, <- app_assoc. reflexivity.
Qed.

(** C6, as the code has it: on a non-empty history the query handed to the
    retrieval step is the last turn's user text when the trimmed completion
    text is exactly ["0"], and in every other case, an empty text included,
    the trimmed completion text itself (nothing when the completion has no
    text); this step adds no failure of its own. *)
Theorem sentinel_only_query_fallback (older : list HistoryMessage) (h : HistoryMessage)
    (context : option (ChatApproachContext.t number)) (w : World number) :
  exists (base : BaseRun number) (w' : World number),
    baseRun number number_0 number_0_7 chatGptModel chatGptTokenLimit cost
      createCompletion searchDocuments messagesToString (older ++ [h]) context w
    = Js.Ok (base, w')
    /\ searchedQueries number w'
       = searchedQueries number w
         ++ [ if Js.strictEq
                   (option_map Js.trim
                      (createCompletion
                         (queryRewriteRequest number number_0 chatGptModel
                            chatGptTokenLimit cost (fewShotsArray number w) older h))) "0"
              then user h
              else option_map Js.trim
                     (createCompletion
                        (queryRewriteRequest number number_0 chatGptModel
                           chatGptTokenLimit cost (fewShotsArray number w) older h)) ].
Proof.
  destruct (baseRun_snoc older h context w) as (base & Hbase).
  eexists base, _. split; [exact Hbase |].
  rewrite searchedQueries_app. reflexivity.
Qed.

(** C8: in streaming mode a completion stream of n deltas gives n records in
    the same order; record 0 carries the evidence and the diagnostics with
    its delta's text, every later record carries its delta's text alone, and
    the answer fields concatenate to the concatenation of the deltas. *)
Theorem streaming_yields_one_record_per_delta (older : list HistoryMessage)
    (h : HistoryMessage) (context : option (ChatApproachContext.t number))
    (w : World number) :
  exists (base : BaseRun number) (w1 : World number)
         (records : list ApproachResponseChunk.t) (w2 : World number),
    baseRun number number_0 number_0_7 chatGptModel chatGptTokenLimit cost
      createCompletion searchDocuments messagesToString (older ++ [h]) context w
    = Js.Ok (base, w1)
    /\ runWithStreaming number number_0 number_0_7 chatGptModel chatGptTokenLimit cost
         createCompletion createCompletionStream searchDocuments messagesToString
         (older ++ [h]) context w
       = Js.Ok (records, w2)
    /\ length records
       = length (createCompletionStream (completionRequest number base))
    /\ (forall i : nat,
          nth_error records i
          = option_map
              (fun delta =>
                 {| ApproachResponseChunk.data_points :=
                      if Nat.eqb i 0 then Some (dataPoints number base) else None;
                    ApproachResponseChunk.thoughts :=
                      if Nat.eqb i 0 then Some (thoughts number base) else None;
                    ApproachResponseChunk.answer := Js.nullish delta "" |})
              (nth_error (createCompletionStream (completionRequest number base)) i))
    /\ String.concat "" (map ApproachResponseChunk.answer records)
       = String.concat ""
           (map (fun delta => Js.nullish delta "")
                (createCompletionStream (completionRequest number base))).
Proof.
  destruct (baseRun_snoc older h context w) as (base & Hbase).
  eexists base, _, _, _. split; [exact Hbase |].
  unfold runWithStreaming, bind. rewrite Hbase.
  unfold createStream, ret. cbn [fewShotsArray calls].
  split; [reflexivity |].
  split; [apply streamingLoop_length |].
  split.
  - intros i. apply (streamingLoop_nth _ _ _ 0 i).
  - now rewrite streamingLoop_answers.
Qed.

(** C9: for a history whose last turn has user text [U], the prompt sent by
    the query-rewrite step ends with a user message whose content is
    ["Generate search query for: "] followed by [U]; it is the last user
    message of that prompt. *)
Theorem query_prompt_ends_with_instruction (older : list HistoryMessage)
    (U : string) (answered : option string)
    (context : option (ChatApproachContext.t number)) (w : World number) :
  exists (base : BaseRun number) (w' : World number)
         (request : CompletionRequest.t number) (later : list (CompletionRequest.t number)),
    baseRun number number_0 number_0_7 chatGptModel chatGptTokenLimit cost
      createCompletion searchDocuments messagesToString
      (older ++ [ {| user := Some U; bot := answered |} ]) context w
    = Js.Ok (base, w')
    /\ createRequests number w' = createRequests number w ++ request :: later
    /\ lastUserMessage (CompletionRequest.messages request)
       = Some ("Generate search query for: " ++ U)%string
    /\ nth_error (CompletionRequest.messages request)
         (length (CompletionRequest.messages request) - 1)
       = Some {| role := Role.user;
                 content := ("Generate search query for: " ++ U)%string |}.
Proof.
  destruct (baseRun_snoc older {| user := Some U; bot := answered |} context w)
    as (base & Hbase).
  destruct (queryRewriteRequest_last (fewShotsArray number w) older
              {| user := Some U; bot := answered |}) as (front & Hfront).
  eexists base, _, _, _. split; [exact Hbase |].
  split; [rewrite createRequests_app; reflexivity |].
  rewrite Hfront. cbn [user Js.toString].
  split; [apply lastUserMessage_snoc | apply nth_error_snoc_last].
Qed.

(** C10: neither entry point guards the read of the last turn.  On an empty
    history that first read, the first statement of [baseRun], throws, and
    so do [run] and [runWithStreaming]; on any non-empty history both entry
    points return.  When the last turn has no user text
    the read yields [undefined] and the query-rewrite prompt is built from
    that word instead of a question. *)
Theorem last_turn_is_read_unguarded
    (context : option (ChatApproachContext.t number)) (w : World number) :
  lastUser [] = Js.Throw Js.TypeError
  /\ baseRun number number_0 number_0_7 chatGptModel chatGptTokenLimit cost
       createCompletion searchDocuments messagesToString [] context w
     = Js.Throw Js.TypeError
  /\ run number number_0 number_0_7 chatGptModel chatGptTokenLimit cost
       createCompletion searchDocuments messagesToString [] context w
     = Js.Throw Js.TypeError
  /\ runWithStreaming number number_0 number_0_7 chatGptModel chatGptTokenLimit cost
       createCompletion createCompletionStream searchDocuments messagesToString
       [] context w
     = Js.Throw Js.TypeError
  /\ (forall (older : list HistoryMessage) (h : HistoryMessage),
        exists response w',
          run number number_0 number_0_7 chatGptModel chatGptTokenLimit cost
            createCompletion searchDocuments messagesToString (older ++ [h]) context w
          = Js.Ok (response, w'))
  /\ (forall (older : list HistoryMessage) (h : HistoryMessage),
        exists records w',
          runWithStreaming number number_0 number_0_7 chatGptModel chatGptTokenLimit
            cost createCompletion createCompletionStream searchDocuments
            messagesToString (older ++ [h]) context w
          = Js.Ok (records, w'))
  /\ (forall (older : list HistoryMessage) (answered : option string),
        exists base w' request later,
          baseRun number number_0 number_0_7 chatGptModel chatGptTokenLimit cost
            createCompletion searchDocuments messagesToString
            (older ++ [ {| user := None; bot := answered |} ]) context w
          = Js.Ok (base, w')
          /\ createRequests number w' = createRequests number w ++ request :: later
          /\ lastUserMessage (CompletionRequest.messages request)
             = Some "Generate search query for: undefined"%string).
Proof.
  split; [reflexivity |].
  split; [reflexivity |].
  split; [reflexivity |].
  split; [reflexivity |].
  split; [| split].
  - intros older h.
    destruct (baseRun_snoc older h context w) as (base & Hbase).
    unfold run, bind. rewrite Hbase. unfold create, ret. eexists _, _. reflexivity.
  - intros older h.
    destruct (baseRun_snoc older h context w) as (base & Hbase).
    unfold runWithStreaming, bind. rewrite Hbase. unfold createStream, ret.
    eexists _, _. reflexivity.
  - intros older answered.
    destruct (baseRun_snoc older {| user := None; bot := answered |} context w)
      as (base & Hbase).
    destruct (queryRewriteRequest_last (fewShotsArray number w) older
                {| user := None; bot := answered |}) as (front & Hfront).
    eexists base, _, _, _. split; [exact Hbase |].
    split; [rewrite createRequests_app; reflexivity |].
    rewrite Hfront. apply lastUserMessage_snoc.
Qed.

End PipelineFacts.

(** ** The properties on the concrete instance *)

(** With a budget of 170 the walk stops after the second newest turn, whose
    insertion takes the total from 166 to 203. *)
Lemma overflowing_turn_is_included_witness :
  includedTurns Demo.meter "S" "gpt-35-turbo" Demo.conversation "Q"
    QUERY_PROMPT_FEW_SHOTS 170
  < length (rev (removelast Demo.conversation))
  /\ exists crossing : HistoryMessage,
       nth_error (rev (removelast Demo.conversation)) (2 - 1) = Some crossing
       /\ (170 < costAfter Demo.meter "S" "gpt-35-turbo" "Q" QUERY_PROMPT_FEW_SHOTS
                   (rev (removelast Demo.conversation)) 2)%Z
       /\ (forall j, 1 <= j < 2 ->
             (costAfter Demo.meter "S" "gpt-35-turbo" "Q" QUERY_PROMPT_FEW_SHOTS
                (rev (removelast Demo.conversation)) j <= 170)%Z)
       /\ In crossing (firstn 2 (rev (removelast Demo.conversation)))
       /\ returned (getMessagesFromHistory Demo.meter "S" "gpt-35-turbo" Demo.conversation
                      "Q" QUERY_PROMPT_FEW_SHOTS 170)
          = {| role := Role.system; content := "S" |}
              :: QUERY_PROMPT_FEW_SHOTS
              ++ flat_map turnMessages
                   (rev (firstn 2 (rev (removelast Demo.conversation))))
              ++ [ {| role := Role.user; content := "Q" |} ].
Proof.
  assert (H : includedTurns Demo.meter "S" "gpt-35-turbo" Demo.conversation "Q"
                QUERY_PROMPT_FEW_SHOTS 170
              < length (rev (removelast Demo.conversation)))
    by (vm_compute; lia).
  split; [exact H |].
  exact (overflowing_turn_is_included Demo.meter "S" "gpt-35-turbo" Demo.conversation "Q"
           QUERY_PROMPT_FEW_SHOTS 170 H).
Defined.

Lemma included_turns_monotone_witness :
  (50 <= 170)%Z
  /\ includedTurns Demo.meter "S" "gpt-35-turbo" Demo.conversation "Q"
       QUERY_PROMPT_FEW_SHOTS 50
     <= includedTurns Demo.meter "S" "gpt-35-turbo" Demo.conversation "Q"
          QUERY_PROMPT_FEW_SHOTS 170
  /\ length (returned (getMessagesFromHistory Demo.meter "S" "gpt-35-turbo"
                         Demo.conversation "Q" QUERY_PROMPT_FEW_SHOTS 50))
     <= length (returned (getMessagesFromHistory Demo.meter "S" "gpt-35-turbo"
                            Demo.conversation "Q" QUERY_PROMPT_FEW_SHOTS 170)).
Proof.
  assert (H : (50 <= 170)%Z) by lia.
  split; [exact H |].
  exact (included_turns_monotone Demo.meter "S" "gpt-35-turbo" Demo.conversation "Q"
           QUERY_PROMPT_FEW_SHOTS 50 170 H).
Defined.

Example included_turns_at_budgets :
  includedTurns Demo.meter "S" "gpt-35-turbo" Demo.conversation "Q"
    QUERY_PROMPT_FEW_SHOTS 50 = 1
  /\ includedTurns Demo.meter "S" "gpt-35-turbo" Demo.conversation "Q"
       QUERY_PROMPT_FEW_SHOTS 170 = 2
  /\ includedTurns Demo.meter "S" "gpt-35-turbo" Demo.conversation "Q"
       QUERY_PROMPT_FEW_SHOTS 4096 = 3.
Proof. repeat split; reflexivity. Qed.

(** C6, as the claim states it, fails on a blank completion: the trimmed
    text is empty, and the retrieval step receives that empty text, not the
    user's question. *)
Lemma blank_completion_is_searched_as_is :
  exists (base : BaseRun unit) (w' : World unit),
    Demo.baseRun (Some "  ") [Demo.paymentQuestion] None Demo.world0 = Js.Ok (base, w')
    /\ Js.trim "  " = ""%string
    /\ searchedQueries unit w' = [Some ""%string]
    /\ searchedQueries unit w' <> [user Demo.paymentQuestion].
Proof.
  eexists _, _. split; [vm_compute; reflexivity |].
  split; [reflexivity |].
  split; [reflexivity |].
  vm_compute. discriminate.
Qed.

Example sentinel_completion_falls_back :
  exists (base : BaseRun unit) (w' : World unit),
    Demo.baseRun (Some " 0 ") [Demo.paymentQuestion] None Demo.world0 = Js.Ok (base, w')
    /\ searchedQueries unit w' = [Some "What happens if a payment error occurs?"%string].
Proof. eexists _, _. split; [vm_compute; reflexivity | reflexivity]. Qed.

Example streaming_scenario :
  exists (records : list ApproachResponseChunk.t) (w' : World unit),
    Demo.runWithStreaming (Some "payment error") [Some "Hel"; Some "lo"; Some " there"]%string
      [Demo.paymentQuestion] None Demo.world0
    = Js.Ok (records, w')
    /\ map ApproachResponseChunk.answer records = ["Hel"; "lo"; " there"]%string
    /\ map ApproachResponseChunk.data_points records
       = [Some ["info1.txt: Payments are retried once."%string]; None; None]
    /\ map (fun r => match ApproachResponseChunk.thoughts r with Some _ => true | None => false end)
           records
       = [true; false; false]
    /\ String.concat "" (map ApproachResponseChunk.answer records) = "Hello there"%string.
Proof. eexists _, _. split; [vm_compute; reflexivity |]. repeat split; reflexivity. Qed.

Example payment_question_scenario :
  createRequests unit
    match Demo.baseRun (Some "payment error") [Demo.paymentQuestion] None Demo.world0 with
    | Js.Ok (_, w') => w'
    | Js.Throw _ => Demo.world0
    end
  = [ {| CompletionRequest.model := "gpt-35-turbo"%string;
         CompletionRequest.messages :=
           {| role := Role.system; content := QUERY_PROMPT_TEMPLATE |}
             :: QUERY_PROMPT_FEW_SHOTS
             ++ [ {| role := Role.user;
                     content := "Generate search query for: What happens if a payment error occurs?"%string |} ];
         CompletionRequest.temperature := tt;
         CompletionRequest.max_tokens := 32%Z;
         CompletionRequest.n := 1%Z |} ].
Proof. vm_compute. reflexivity. Qed.

(** On the second request served by the same module the shared array is
    already reversed, and the query-rewrite prompt shows the few-shots
    backwards. *)
Example second_request_few_shots :
  match Demo.baseRun (Some "payment error") [Demo.paymentQuestion] None Demo.world0 with
  | Js.Ok (_, w1) =>
      match Demo.baseRun (Some "payment error") [Demo.paymentQuestion] None w1 with
      | Js.Ok (_, w2) =>
          map (fun r => firstn 5 (CompletionRequest.messages r)) (createRequests unit w2)
          = [ {| role := Role.system; content := QUERY_PROMPT_TEMPLATE |}
                :: QUERY_PROMPT_FEW_SHOTS;
              {| role := Role.system; content := QUERY_PROMPT_TEMPLATE |}
                :: rev QUERY_PROMPT_FEW_SHOTS ]
      | Js.Throw _ => False
      end
  | Js.Throw _ => False
  end.
Proof. vm_compute. reflexivity. Qed.

Example SYSTEM_MESSAGE_length :
  String.length SYSTEM_MESSAGE_CHAT_CONVERSATION = 938
  /\ String.length FOLLOW_UP_QUESTIONS_PROMPT_CONTENT = 371
  /\ String.length QUERY_PROMPT_TEMPLATE = 688.
Proof. repeat split; reflexivity. Qed.

Example replace_patterns :
  Js.replace "abc" "b" "$$-$&-$`-$'-$1" = "a$-b-a-c-$1c"%string
  /\ Js.replace "a-a" "a" "b" = "b-a"%string
  /\ Js.replace "abc" "x" "y" = "abc"%string.
Proof. repeat split; reflexivity. Qed.

Example trim_examples :
  Js.trim (" 0" ++ LF)%string = "0"%string
  /\ Js.trim "a b " = "a b"%string
  /\ Js.trim (LF ++ " ")%string = ""%string.
Proof. repeat split; reflexivity. Qed.

(** * Further properties *)

(** ** The assembler *)

(** How many turns a call includes: the walk covers the turns up to the
    first one after which the running total is above the budget. *)
Lemma includedTurns_spec (cost : Message -> string -> Z) (systemPrompt chatModel : string)
    (history : list HistoryMessage) (userContent : string)
    (fewShots : list Message) (maxTokens : Z) :
  includedTurns cost systemPrompt chatModel history userContent fewShots maxTokens
  <= length (rev (removelast history))
  /\ (rev (removelast history) <> [] ->
      1 <= includedTurns cost systemPrompt chatModel history userContent fewShots maxTokens)
  /\ (includedTurns cost systemPrompt chatModel history userContent fewShots maxTokens
      < length (rev (removelast history)) ->
      (maxTokens
       < costAfter cost systemPrompt chatModel userContent fewShots
           (rev (removelast history))
           (includedTurns cost systemPrompt chatModel history userContent fewShots
              maxTokens))%Z)
  /\ (forall j,
        1 <= j < includedTurns cost systemPrompt chatModel history userContent fewShots
                   maxTokens ->
        (costAfter cost systemPrompt chatModel userContent fewShots
           (rev (removelast history)) j <= maxTokens)%Z).
Proof.
  destruct (builder_before_history cost systemPrompt chatModel userContent fewShots)
    as (Hm & Hmod & Htok). cbn zeta in Hm, Hmod, Htok.
  assert (Hlen : length (rev fewShots) + 1
                 = length ({| role := Role.system; content := systemPrompt |} :: fewShots))
    by (simpl; rewrite length_rev; lia).
  unfold includedTurns. cbn zeta.
  rewrite Hlen in *.
  split; [apply walkedTurns_le_length |].
  split; [apply walkedTurns_pos |].
  destruct (walkedTurns_budget cost _ maxTokens (rev (removelast history)) _ _ Hm)
    as (Hstop & Hbelow).
  cbn zeta in Hstop, Hbelow. rewrite Hmod, Htok in Hstop, Hbelow.
  split; assumption.
Qed.

Lemma tokensOf_flat_map_rev (cost : Message -> string -> Z) (chatModel : string)
    (l : list HistoryMessage) :
  tokensOf cost chatModel (flat_map turnMessages (rev l))
  = tokensOf cost chatModel (flat_map turnMessages l).
Proof.
  induction l as [|h l IH]; [reflexivity |].
  simpl. rewrite flat_map_app, !tokensOf_app, IH. simpl. rewrite app_nil_r. lia.
Qed.




(** X1: when the running total stays within the budget after each turn but
    the oldest one, every turn before the last is included, in the order of
    the conversation, user text before assistant text; the last turn of
    [history] itself contributes nothing. *)
Theorem whole_history_when_budget_suffices
    (cost : Message -> string -> Z) (systemPrompt chatModel : string)
    (older : list HistoryMessage) (h : HistoryMessage) (userContent : string)
    (fewShots : list Message) (maxTokens : Z) :
  (forall j, 1 <= j < length older ->
     (costAfter cost systemPrompt chatModel userContent fewShots (rev older) j
      <= maxTokens)%Z) ->
  returned (getMessagesFromHistory cost systemPrompt chatModel (older ++ [h]) userContent
              fewShots maxTokens)
  = {| role := Role.system; content := systemPrompt |}
      :: fewShots ++ flat_map turnMessages older
      ++ [ {| role := Role.user; content := userContent |} ].
Proof.
  intros Hfits.
  rewrite getMessagesFromHistory_returned.
  destruct (includedTurns_spec cost systemPrompt chatModel (older ++ [h]) userContent
              fewShots maxTokens) as (Hle & Hpos & Hstop & _).
  rewrite removelast_last in *.
  set (k := includedTurns cost systemPrompt chatModel (older ++ [h]) userContent fewShots
              maxTokens) in *.
  rewrite length_rev in *.
  assert (Hk : k = length older).
  { destruct (Nat.eq_dec k (length older)) as [E|NE]; [exact E | exfalso].
    assert (Hlt : k < length older) by lia.
    assert (Hne : rev older <> []).
    { intros E. apply (f_equal (@length _)) in E. rewrite length_rev in E.
      simpl in E. lia. }
    specialize (Hpos Hne). specialize (Hstop Hlt).
    specialize (Hfits k (conj Hpos Hlt)). lia. }
  rewrite Hk, <- (length_rev older), firstn_all, rev_involutive. reflexivity.
Qed.

(** X2: the newest turn before the last is included whatever the budget,
    a budget of zero or below included: its messages sit right before the
    trailing user content. *)
Theorem newest_earlier_turn_always_included
    (cost : Message -> string -> Z) (systemPrompt chatModel : string)
    (older : list HistoryMessage) (previous h : HistoryMessage) (userContent : string)
    (fewShots : list Message) (maxTokens : Z) :
  exists front : list Message,
    returned (getMessagesFromHistory cost systemPrompt chatModel
                (older ++ [previous; h]) userContent fewShots maxTokens)
    = front ++ turnMessages previous
      ++ [ {| role := Role.user; content := userContent |} ].
Proof.
  rewrite getMessagesFromHistory_returned.
  destruct (includedTurns_spec cost systemPrompt chatModel (older ++ [previous; h])
              userContent fewShots maxTokens) as (_ & Hpos & _ & _).
  set (k := includedTurns cost systemPrompt chatModel (older ++ [previous; h]) userContent
              fewShots maxTokens) in *.
  replace (older ++ [previous; h]) with ((older ++ [previous]) ++ [h]) in *
    by (rewrite <- app_assoc; reflexivity).
  rewrite removelast_last, rev_app_distr in *. cbn [rev app] in *.
  assert (Hk : 1 <= k) by (apply Hpos; discriminate).
  destruct k as [|k]; [lia |].
  cbn [firstn rev]. rewrite flat_map_app. cbn [flat_map]. rewrite app_nil_r.
  exists ({| role := Role.system; content := systemPrompt |}
            :: fewShots ++ flat_map turnMessages (rev (firstn k (rev older)))).
  rewrite <- app_comm_cons, <- !app_assoc. reflexivity.
Qed.

(** X3: the budget is overshot by at most one turn: when two or more turns
    are included, the cost of the returned sequence is at most [maxTokens]
    plus the cost of the oldest included turn. *)
Theorem overshoot_is_at_most_one_turn
    (cost : Message -> string -> Z) (systemPrompt chatModel : string)
    (history : list HistoryMessage) (userContent : string)
    (fewShots : list Message) (maxTokens : Z) :
  2 <= includedTurns cost systemPrompt chatModel history userContent fewShots maxTokens ->
  exists oldest : HistoryMessage,
    nth_error (rev (removelast history))
      (includedTurns cost systemPrompt chatModel history userContent fewShots maxTokens - 1)
    = Some oldest
    /\ (tokensOf cost chatModel
          (returned (getMessagesFromHistory cost systemPrompt chatModel history userContent
                       fewShots maxTokens))
        <= maxTokens + tokensOf cost chatModel (turnMessages oldest))%Z.
Proof.
  intros Htwo.
  rewrite getMessagesFromHistory_returned.
  destruct (includedTurns_spec cost systemPrompt chatModel history userContent
              fewShots maxTokens) as (Hle & _ & _ & Hbelow).
  set (k := includedTurns cost systemPrompt chatModel history userContent fewShots
              maxTokens) in *.
  set (turns := rev (removelast history)) in *.
  destruct (nth_error turns (k - 1)) as [oldest|] eqn:Hnth.
  2:{ apply nth_error_None in Hnth. lia. }
  exists oldest. split; [reflexivity |].
  assert (Hprev : (costAfter cost systemPrompt chatModel userContent fewShots turns (k - 1)
                   <= maxTokens)%Z) by (apply Hbelow; lia).
  assert (Hsplit : firstn k turns = firstn (k - 1) turns ++ [oldest]).
  { replace k with (S (k - 1)) at 1 by lia.
    clear - Hnth. revert Hnth. generalize (k - 1) as n. revert turns.
    induction turns as [|t turns IH]; intros [|n] Hn; simpl in *; try discriminate.
    - now inversion Hn.
    - f_equal. now apply IH. }
  unfold costAfter in Hprev.
  change ({| role := Role.system; content := systemPrompt |}
            :: fewShots ++ flat_map turnMessages (rev (firstn k turns))
            ++ [ {| role := Role.user; content := userContent |} ])
    with (({| role := Role.system; content := systemPrompt |} :: fewShots)
            ++ flat_map turnMessages (rev (firstn k turns))
            ++ [ {| role := Role.user; content := userContent |} ]).
  change ({| role := Role.system; content := systemPrompt |}
            :: fewShots ++ [ {| role := Role.user; content := userContent |} ])
    with (({| role := Role.system; content := systemPrompt |} :: fewShots)
            ++ [ {| role := Role.user; content := userContent |} ]) in Hprev.
  rewrite !tokensOf_app in *. rewrite tokensOf_flat_map_rev, Hsplit, flat_map_app.
  rewrite tokensOf_app. cbn [flat_map]. rewrite app_nil_r. lia.
Qed.


(** ** The pipeline, continued *)

Lemma prefix_empty (s : string) : String.prefix "" s = true.
Proof. now destruct s. Qed.

Lemma splitAtFirst_lineFeed (a b : string) :
  lineFeedFree a = true ->
  Js.splitAtFirst LF (a ++ LF ++ b)%string = Some (a, b).
Proof.
  induction a as [|c a IH]; intros Ha.
  - unfold LF. cbn. now rewrite prefix_empty.
  - simpl in Ha. apply andb_prop in Ha. destruct Ha as (Hc & Ha).
    specialize (IH Ha).
    cbn [append Js.splitAtFirst]. rewrite IH.
    unfold LF at 1. cbn [String.prefix].
    destruct (ascii_dec (ascii_of_nat 10) c) as [E|NE].
    + subst c. rewrite Ascii.eqb_refl in Hc. discriminate.
    + reflexivity.
Qed.

Lemma prefix_append (a b : string) : String.prefix a (a ++ b)%string = true.
Proof.
  induction a as [|c a IH]; simpl; [apply prefix_empty |].
  destruct (ascii_dec c c); [assumption | congruence].
Qed.

Lemma strictEq_true (v : option string) (s : string) :
  Js.strictEq v s = true <-> v = Some s.
Proof.
  destruct v as [t|]; simpl; [rewrite String.eqb_eq | ]; split; congruence.
Qed.

Lemma streamingLoop_later (dataPoints : list string) (thoughts : string)
    (chunks : list (option string)) :
  forall id,
    filter carriesMetadata (streamingLoop dataPoints thoughts (S id) chunks) = [].
Proof.
  induction chunks as [|delta rest IH]; intros id; simpl; [reflexivity | apply IH].
Qed.

Lemma followUpQuestionsPromptOf_cases {number : Type}
    (context : option (ChatApproachContext.t number)) :
  exists suggest : bool,
    followUpQuestionsPromptOf context
    = if suggest then FOLLOW_UP_QUESTIONS_PROMPT_CONTENT else ""%string.
Proof.
  destruct context as [c|]; [| exists false; reflexivity].
  unfold followUpQuestionsPromptOf.
  destruct (ChatApproachContext.suggest_followup_questions c) as [[|]|];
    [exists true | exists false | exists false]; reflexivity.
Qed.

(** Whatever replaces [{injected_prompt}], the text before it stays. *)
Lemma replace_injected_keeps_base (suggest : bool) (replacement : string) :
  Js.startsWith
    (Js.replace
       (Js.replace SYSTEM_MESSAGE_CHAT_CONVERSATION "{follow_up_questions_prompt}"
          (if suggest then FOLLOW_UP_QUESTIONS_PROMPT_CONTENT else ""))
       "{injected_prompt}" replacement)
    (BASE_INSTRUCTIONS
       ++ (if suggest then FOLLOW_UP_QUESTIONS_PROMPT_CONTENT else "") ++ LF)%string
  = true.
Proof.
  unfold Js.replace at 1, Js.startsWith.
  destruct suggest.
  - remember (Js.splitAtFirst "{injected_prompt}"
                (Js.replace SYSTEM_MESSAGE_CHAT_CONVERSATION
                   "{follow_up_questions_prompt}" FOLLOW_UP_QUESTIONS_PROMPT_CONTENT))
      as sp eqn:E.
    vm_compute in E. subst sp. cbv iota beta.
    match goal with
    | |- String.prefix ?pre (?before ++ _)%string = true =>
        replace pre with before by (vm_compute; reflexivity)
    end.
    apply prefix_append.
  - remember (Js.splitAtFirst "{injected_prompt}"
                (Js.replace SYSTEM_MESSAGE_CHAT_CONVERSATION
                   "{follow_up_questions_prompt}" "")) as sp eqn:E.
    vm_compute in E. subst sp. cbv iota beta.
    match goal with
    | |- String.prefix ?pre (?before ++ _)%string = true =>
        replace pre with before by (vm_compute; reflexivity)
    end.
    apply prefix_append.
Qed.

Lemma resolveSystemMessage_keeps_base (suggest : bool) (promptOverride : option string) :
  Js.startsWith
    (resolveSystemMessage (if suggest then FOLLOW_UP_QUESTIONS_PROMPT_CONTENT else "")
       promptOverride)
    (BASE_INSTRUCTIONS
       ++ (if suggest then FOLLOW_UP_QUESTIONS_PROMPT_CONTENT else "") ++ LF)%string
  = true.
Proof.
  unfold resolveSystemMessage.
  destruct (match promptOverride with
            | Some p => Js.startsWith p ">>>"
            | None => false
            end);
    [apply replace_injected_keeps_base |].
  destruct (Js.truthy promptOverride); apply replace_injected_keeps_base.
Qed.

Section PipelineMore.

Variable number : Type.
Variable number_0 number_0_7 : number.
Variable chatGptModel : string.
Variable chatGptTokenLimit : Z.
Variable cost : Message -> string -> Z.
Variable createCompletion : CompletionRequest.t number -> option string.
Variable createCompletionStream : CompletionRequest.t number -> list (option string).
Variable searchDocuments :
  option string -> option (ChatApproachContext.t number) -> SearchDocumentsResult.t.
Variable messagesToString : list Message -> string.

(** Everything [baseRun] produces on a non-empty history. *)
Lemma baseRun_snoc_full (older : list HistoryMessage) (h : HistoryMessage)
    (context : option (ChatApproachContext.t number)) (w : World number) :
  exists base : BaseRun number,
    baseRun number number_0 number_0_7 chatGptModel chatGptTokenLimit cost
      createCompletion searchDocuments messagesToString (older ++ [h]) context w
    = Js.Ok
        (base,
         {| fewShotsArray := rev (fewShotsArray number w);
            calls :=
              calls number w
              ++ [ CallCreate number
                     (queryRewriteRequest number number_0 chatGptModel chatGptTokenLimit
                        cost (fewShotsArray number w) older h);
                   CallSearchDocuments number
                     (queryFor number number_0 chatGptModel chatGptTokenLimit cost
                        createCompletion (fewShotsArray number w) older h)
                     context ] |})
    /\ CompletionRequest.messages (completionRequest number base)
       = returned
           (getMessagesFromHistory cost
              (resolveSystemMessage (followUpQuestionsPromptOf context)
                 (promptOverrideOf context))
              chatGptModel (older ++ [h])
              (Js.toString (user h) ++ LF ++ LF ++ "Sources:" ++ LF
                 ++ SearchDocumentsResult.content
                      (searchDocuments
                         (queryFor number number_0 chatGptModel chatGptTokenLimit cost
                            createCompletion (fewShotsArray number w) older h)
                         context))%string
              [] chatGptTokenLimit)
    /\ CompletionRequest.model (completionRequest number base) = chatGptModel
    /\ CompletionRequest.max_tokens (completionRequest number base) = 1024%Z
    /\ CompletionRequest.n (completionRequest number base) = 1%Z
    /\ dataPoints number base
       = SearchDocumentsResult.results
           (searchDocuments
              (queryFor number number_0 chatGptModel chatGptTokenLimit cost
                 createCompletion (fewShotsArray number w) older h)
              context)
    /\ thoughts number base
       = ("Searched for:<br>"
            ++ SearchDocumentsResult.query
                 (searchDocuments
                    (queryFor number number_0 chatGptModel chatGptTokenLimit cost
                       createCompletion (fewShotsArray number w) older h)
                    context)
            ++ "<br><br>Conversations:<br>"
            ++ Js.replace
                 (messagesToString
                    (CompletionRequest.messages
                       (queryRewriteRequest number number_0 chatGptModel
                          chatGptTokenLimit cost (fewShotsArray number w) older h)))
                 LF "<br>")%string.
Proof.
  unfold baseRun, bind, lift.
  rewrite lastUser_snoc.
  unfold getMessagesFromHistoryShared, create.
  cbn [fewShotsArray calls].
  rewrite rewrittenQuery_snoc.
  unfold search, ret. cbn [fewShotsArray calls].
  eexists. split; [rewrite <- app_assoc; reflexivity |].
  cbn [completionRequest dataPoints thoughts CompletionRequest.messages
       CompletionRequest.model CompletionRequest.max_tokens CompletionRequest.n].
  repeat split.
Qed.

Lemma run_snoc (older : list HistoryMessage) (h : HistoryMessage)
    (context : option (ChatApproachContext.t number)) (w : World number) :
  exists (base : BaseRun number) (wb : World number),
    baseRun number number_0 number_0_7 chatGptModel chatGptTokenLimit cost
      createCompletion searchDocuments messagesToString (older ++ [h]) context w
    = Js.Ok (base, wb)
    /\ fewShotsArray number wb = rev (fewShotsArray number w)
    /\ length (calls number wb) = length (calls number w) + 2
    /\ run number number_0 number_0_7 chatGptModel chatGptTokenLimit cost
         createCompletion searchDocuments messagesToString (older ++ [h]) context w
       = Js.Ok
           ({| ApproachResponse.data_points := dataPoints number base;
               ApproachResponse.answer :=
                 Js.nullish (createCompletion (completionRequest number base)) "";
               ApproachResponse.thoughts := thoughts number base |},
            {| fewShotsArray := fewShotsArray number wb;
               calls :=
                 calls number wb ++ [ CallCreate number (completionRequest number base) ] |})
    /\ runWithStreaming number number_0 number_0_7 chatGptModel chatGptTokenLimit cost
         createCompletion createCompletionStream searchDocuments messagesToString
         (older ++ [h]) context w
       = Js.Ok
           (streamingLoop (dataPoints number base) (thoughts number base) 0
              (createCompletionStream (completionRequest number base)),
            {| fewShotsArray := fewShotsArray number wb;
               calls :=
                 calls number wb
                 ++ [ CallCreateStream number (completionRequest number base) ] |}).
Proof.
  destruct (baseRun_snoc_full older h context w) as (base & Hbase & _).
  eexists base, _. split; [exact Hbase |].
  cbn [fewShotsArray calls].
  split; [reflexivity |].
  split; [rewrite length_app; reflexivity |].
  unfold run, runWithStreaming, bind. rewrite Hbase.
  unfold create, createStream, ret. cbn [fewShotsArray calls].
  split; reflexivity.
Qed.


(** X6: each request reverses the shared few-shot array once, so two
    requests in a row leave it as they found it: the few-shots of the
    query-rewrite prompt alternate between the written order and its
    reverse from one request to the next. *)
Theorem two_requests_restore_few_shots
    (older1 older2 : list HistoryMessage) (h1 h2 : HistoryMessage)
    (context1 context2 : option (ChatApproachContext.t number)) (w : World number) :
  exists (response1 response2 : ApproachResponse.t) (w1 w2 : World number),
    run number number_0 number_0_7 chatGptModel chatGptTokenLimit cost
      createCompletion searchDocuments messagesToString (older1 ++ [h1]) context1 w
    = Js.Ok (response1, w1)
    /\ run number number_0 number_0_7 chatGptModel chatGptTokenLimit cost
         createCompletion searchDocuments messagesToString (older2 ++ [h2]) context2 w1
       = Js.Ok (response2, w2)
    /\ fewShotsArray number w1 = rev (fewShotsArray number w)
    /\ fewShotsArray number w2 = fewShotsArray number w.
Proof.
  destruct (run_snoc older1 h1 context1 w) as (b1 & wb1 & _ & Hshots1 & _ & Hrun1 & _).
  destruct (run_snoc older2 h2 context2
              {| fewShotsArray := fewShotsArray number wb1;
                 calls :=
                   calls number wb1 ++ [ CallCreate number (completionRequest number b1) ] |})
    as (b2 & wb2 & _ & Hshots2 & _ & Hrun2 & _).
  eexists _, _, _, _. split; [exact Hrun1 |].
  split; [exact Hrun2 |].
  cbn [fewShotsArray] in *.
  split; [exact Hshots1 |].
  rewrite Hshots2, Hshots1. apply rev_involutive.
Qed.

(** X7: [run] and [runWithStreaming] hand the completion service the very
    same request after the same two preparatory calls; [run] makes three
    calls in all and returns the evidence and diagnostics of [baseRun] with
    the completion text, the empty string when the completion has none. *)
Theorem run_and_streaming_share_request (older : list HistoryMessage) (h : HistoryMessage)
    (context : option (ChatApproachContext.t number)) (w : World number) :
  exists (base : BaseRun number) (wb : World number)
         (response : ApproachResponse.t) (w1 : World number)
         (records : list ApproachResponseChunk.t) (w2 : World number),
    baseRun number number_0 number_0_7 chatGptModel chatGptTokenLimit cost
      createCompletion searchDocuments messagesToString (older ++ [h]) context w
    = Js.Ok (base, wb)
    /\ run number number_0 number_0_7 chatGptModel chatGptTokenLimit cost
         createCompletion searchDocuments messagesToString (older ++ [h]) context w
       = Js.Ok (response, w1)
    /\ runWithStreaming number number_0 number_0_7 chatGptModel chatGptTokenLimit cost
         createCompletion createCompletionStream searchDocuments messagesToString
         (older ++ [h]) context w
       = Js.Ok (records, w2)
    /\ calls number w1
       = calls number wb ++ [ CallCreate number (completionRequest number base) ]
    /\ calls number w2
       = calls number wb ++ [ CallCreateStream number (completionRequest number base) ]
    /\ length (calls number w1) = length (calls number w) + 3
    /\ ApproachResponse.data_points response = dataPoints number base
    /\ ApproachResponse.thoughts response = thoughts number base
    /\ ApproachResponse.answer response
       = Js.nullish (createCompletion (completionRequest number base)) "".
Proof.
  destruct (run_snoc older h context w) as (base & wb & Hbase & _ & Hlen & Hrun & Hstream).
  eexists base, wb, _, _, _, _. split; [exact Hbase |].
  split; [exact Hrun |]. split; [exact Hstream |].
  cbn [calls ApproachResponse.data_points ApproachResponse.thoughts ApproachResponse.answer].
  repeat split. rewrite length_app, Hlen. simpl. lia.
Qed.

(** X8: in the diagnostics only the first line feed of the rendered
    query-rewrite prompt becomes [<br>]; the text after it is copied with
    its line feeds. *)
Theorem thoughts_replace_first_line_feed (older : list HistoryMessage) (h : HistoryMessage)
    (context : option (ChatApproachContext.t number)) (w : World number)
    (firstLine rest : string) :
  messagesToString
    (CompletionRequest.messages
       (queryRewriteRequest number number_0 chatGptModel chatGptTokenLimit cost
          (fewShotsArray number w) older h))
  = (firstLine ++ LF ++ rest)%string ->
  lineFeedFree firstLine = true ->
  exists (base : BaseRun number) (w' : World number) (q : option string),
    baseRun number number_0 number_0_7 chatGptModel chatGptTokenLimit cost
      createCompletion searchDocuments messagesToString (older ++ [h]) context w
    = Js.Ok (base, w')
    /\ searchedQueries number w' = searchedQueries number w ++ [q]
    /\ thoughts number base
       = ("Searched for:<br>"
            ++ SearchDocumentsResult.query (searchDocuments q context)
            ++ "<br><br>Conversations:<br>" ++ firstLine ++ "<br>" ++ rest)%string.
Proof.
  intros Hrender Hfirst.
  destruct (baseRun_snoc_full older h context w)
    as (base & Hbase & _ & _ & _ & _ & _ & Hthoughts).
  eexists base, _, _. split; [exact Hbase |].
  split; [rewrite searchedQueries_app; reflexivity |].
  rewrite Hthoughts, Hrender. unfold Js.replace.
  rewrite (splitAtFirst_lineFeed _ _ Hfirst).
  rewrite getSubstitution_dollarFree by reflexivity.
  reflexivity.
Qed.

(** X9: of the records of a streaming run exactly one carries the evidence
    and the diagnostics when the stream has a chunk, and none does when the
    stream is empty: a consumer of an empty stream never sees them. *)
Theorem metadata_on_one_record_at_most (older : list HistoryMessage) (h : HistoryMessage)
    (context : option (ChatApproachContext.t number)) (w : World number) :
  exists (base : BaseRun number) (wb : World number)
         (records : list ApproachResponseChunk.t) (w2 : World number),
    baseRun number number_0 number_0_7 chatGptModel chatGptTokenLimit cost
      createCompletion searchDocuments messagesToString (older ++ [h]) context w
    = Js.Ok (base, wb)
    /\ runWithStreaming number number_0 number_0_7 chatGptModel chatGptTokenLimit cost
         createCompletion createCompletionStream searchDocuments messagesToString
         (older ++ [h]) context w
       = Js.Ok (records, w2)
    /\ length (filter carriesMetadata records)
       = Nat.min 1 (length (createCompletionStream (completionRequest number base))).
Proof.
  destruct (run_snoc older h context w) as (base & wb & Hbase & _ & _ & _ & Hstream).
  eexists base, wb, _, _. split; [exact Hbase |]. split; [exact Hstream |].
  destruct (createCompletionStream (completionRequest number base)) as [|delta rest];
    [reflexivity |].
  cbn [streamingLoop Nat.eqb filter carriesMetadata
       ApproachResponseChunk.data_points ApproachResponseChunk.thoughts].
  rewrite streamingLoop_later. reflexivity.
Qed.

(** X10: the sentinel ["0"] never reaches the retrieval step as a query,
    unless it is the user's own text. *)
Theorem sentinel_is_never_searched (older : list HistoryMessage) (h : HistoryMessage)
    (context : option (ChatApproachContext.t number)) (w : World number) :
  user h <> Some "0"%string ->
  exists (base : BaseRun number) (w' : World number) (q : option string),
    baseRun number number_0 number_0_7 chatGptModel chatGptTokenLimit cost
      createCompletion searchDocuments messagesToString (older ++ [h]) context w
    = Js.Ok (base, w')
    /\ searchedQueries number w' = searchedQueries number w ++ [q]
    /\ q <> Some "0"%string.
Proof.
  intros Huser.
  destruct (baseRun_snoc_full older h context w) as (base & Hbase & _).
  eexists base, _, _. split; [exact Hbase |].
  split; [rewrite searchedQueries_app; reflexivity |].
  unfold queryFor. cbn zeta.
  destruct (Js.strictEq _ "0") eqn:E; [exact Huser |].
  intros Hq. apply strictEq_true in Hq. congruence.
Qed.

(** X11: no prompt override removes the base instructions: the system
    message of the synthesis prompt always starts with the instructions of
    the template, the follow-up block when it is asked for, and a line feed;
    the override only affects what comes after. *)
Theorem override_keeps_base_instructions (older : list HistoryMessage) (h : HistoryMessage)
    (context : option (ChatApproachContext.t number)) (w : World number) :
  exists (base : BaseRun number) (w' : World number)
         (systemContent : string) (rest : list Message),
    baseRun number number_0 number_0_7 chatGptModel chatGptTokenLimit cost
      createCompletion searchDocuments messagesToString (older ++ [h]) context w
    = Js.Ok (base, w')
    /\ CompletionRequest.messages (completionRequest number base)
       = {| role := Role.system; content := systemContent |} :: rest
    /\ Js.startsWith systemContent
         (BASE_INSTRUCTIONS ++ followUpQuestionsPromptOf context ++ LF)%string
       = true.
Proof.
  destruct (baseRun_snoc_full older h context w) as (base & Hbase & Hmsgs & _).
  eexists base, _, _, _. split; [exact Hbase |].
  split; [rewrite Hmsgs, getMessagesFromHistory_returned; reflexivity |].
  destruct (followUpQuestionsPromptOf_cases context) as (suggest & ->).
  apply resolveSystemMessage_keeps_base.
Qed.

(** X12: for a prompt override without a dollar sign the system message of
    the synthesis prompt is the base template with the follow-up placeholder
    replaced by the follow-up block or nothing, and the injection
    placeholder replaced by the override as written: the override itself, or
    what follows [>>>] and a line feed, or nothing. *)
Theorem plain_override_is_injected_as_written (older : list HistoryMessage)
    (h : HistoryMessage) (context : option (ChatApproachContext.t number))
    (w : World number) :
  dollarFree (injectedText (promptOverrideOf context)) = true ->
  exists (base : BaseRun number) (w' : World number) (rest : list Message),
    baseRun number number_0 number_0_7 chatGptModel chatGptTokenLimit cost
      createCompletion searchDocuments messagesToString (older ++ [h]) context w
    = Js.Ok (base, w')
    /\ CompletionRequest.messages (completionRequest number base)
       = {| role := Role.system;
            content := templateWith (followUpQuestionsPromptOf context)
                         (injectedText (promptOverrideOf context)) |} :: rest.
Proof.
  intros Hplain.
  destruct (baseRun_snoc_full older h context w) as (base & Hbase & Hmsgs & _).
  assert (Hsys : resolveSystemMessage (followUpQuestionsPromptOf context)
                   (promptOverrideOf context)
                 = templateWith (followUpQuestionsPromptOf context)
                     (injectedText (promptOverrideOf context))).
  { destruct (followUpQuestionsPromptOf_cases context) as (suggest & ->).
    apply (resolveSystemMessage_dollarFree suggest _ Hplain). }
  eexists base, _, _. split; [exact Hbase |].
  rewrite Hmsgs, getMessagesFromHistory_returned, Hsys. reflexivity.
Qed.

End PipelineMore.

(** ** The configuration plugin *)

Lemma firstUnset_None (l : list (string * string)) :
  Config.firstUnset l = None -> Forall (fun kv => snd kv <> ""%string) l.
Proof.
  induction l as [|[key value] l IH]; intros H; [constructor |].
  simpl in H. destruct value as [|c v]; [discriminate |].
  constructor; [simpl; discriminate | now apply IH].
Qed.

(** The plugin as a function of the first required variable found unset. *)
Lemma plugin_by_first_unset (envPath : string) (env : Config.Env) :
  Config.plugin envPath env
  = match find (fun nk => negb (Config.isSet env (fst nk))) Config.REQUIRED with
    | None =>
        {| Config.consoleLog := [ ("Loading .env config from " ++ envPath ++ "...")%string ];
           Config.errorLog := [];
           Config.outcome := Config.Decorated (Config.readConfig env) |}
    | Some (_, field) =>
        {| Config.consoleLog := [ ("Loading .env config from " ++ envPath ++ "...")%string ];
           Config.errorLog :=
             [ (Config.camelCaseToUpperSnakeCase field
                  ++ " environment variable must be set")%string ];
           Config.outcome :=
             Config.Thrown
               (Config.camelCaseToUpperSnakeCase field
                  ++ " environment variable must be set")%string |}
    end.
Proof.
  unfold Config.plugin, Config.readConfig, Config.entries, Config.REQUIRED,
    Config.isSet, Config.orElse.
  cbn [find fst snd Config.azureStorageAccount Config.azureStorageContainer
       Config.azureSearchService Config.azureSearchIndex Config.azureOpenAiService
       Config.azureOpenAiEmbDeployment Config.azureOpenAiEmbeddingModel
       Config.kbFieldsContent Config.kbFieldsSourcePage].
  destruct (env "AZURE_STORAGE_ACCOUNT"%string) as [[|? ?]|]; try reflexivity.
  destruct (env "AZURE_STORAGE_CONTAINER"%string) as [[|? ?]|]; try reflexivity.
  destruct (env "AZURE_SEARCH_SERVICE"%string) as [[|? ?]|]; try reflexivity.
  destruct (env "AZURE_SEARCH_INDEX"%string) as [[|? ?]|]; try reflexivity.
  destruct (env "AZURE_OPENAI_SERVICE"%string) as [[|? ?]|]; try reflexivity.
  destruct (env "AZURE_OPENAI_EMB_DEPLOYMENT"%string) as [[|? ?]|]; try reflexivity.
  destruct (env "AZURE_OPENAI_EMBEDDING_MODEL"%string) as [[|? ?]|];
    destruct (env "KB_FIELDS_CONTENT"%string) as [[|? ?]|];
    destruct (env "KB_FIELDS_SOURCEPAGE"%string) as [[|? ?]|]; reflexivity.
Qed.

Lemma upper_not_small (c : ascii) : Config.isSmall (Config.upper c) = false.
Proof.
  destruct c as [[] [] [] [] [] [] [] []]; reflexivity.
Qed.

Lemma underscoreCapitals_app (s t : string) :
  Config.underscoreCapitals (s ++ t)
  = (Config.underscoreCapitals s ++ Config.underscoreCapitals t)%string.
Proof.
  induction s as [|c s IH]; simpl; [reflexivity |].
  destruct (Config.isCapital c); simpl; now rewrite IH.
Qed.

Lemma toUpperCase_app (s t : string) :
  Config.toUpperCase (s ++ t) = (Config.toUpperCase s ++ Config.toUpperCase t)%string.
Proof.
  induction s as [|c s IH]; simpl; [reflexivity | now rewrite IH].
Qed.

Lemma toUpperCase_length (s : string) :
  String.length (Config.toUpperCase s) = String.length s.
Proof.
  induction s as [|c s IH]; simpl; [reflexivity | now rewrite IH].
Qed.

Lemma toUpperCase_noSmall (s : string) : Config.noSmall (Config.toUpperCase s) = true.
Proof.
  induction s as [|c s IH]; simpl; [reflexivity |].
  now rewrite upper_not_small, IH.
Qed.

(** X13: what the plugin does is decided by the first, in the order of the
    object literal, of the six variables without a usable fallback that is
    unset or empty.  If there is none the configuration read is decorated
    and nothing is logged as an error; otherwise the message built from that
    variable's field name is both logged and thrown.  The three variables
    with a fallback value never make the plugin fail. *)
Theorem plugin_outcome_by_first_unset (envPath : string) (env : Config.Env) :
  Config.outcome (Config.plugin envPath env)
  = match find (fun nk => negb (Config.isSet env (fst nk))) Config.REQUIRED with
    | None => Config.Decorated (Config.readConfig env)
    | Some (_, field) =>
        Config.Thrown
          (Config.camelCaseToUpperSnakeCase field
             ++ " environment variable must be set")%string
    end
  /\ Config.errorLog (Config.plugin envPath env)
     = match find (fun nk => negb (Config.isSet env (fst nk))) Config.REQUIRED with
       | None => []
       | Some (_, field) =>
           [ (Config.camelCaseToUpperSnakeCase field
                ++ " environment variable must be set")%string ]
       end.
Proof.
  rewrite plugin_by_first_unset.
  destruct (find _ Config.REQUIRED) as [[name field]|]; split; reflexivity.
Qed.

(** X14: a configuration the plugin decorates has no empty field: the six
    required values are the non-empty values of their variables, and the
    three others are their variables' values or, failing that, the fallback
    values. *)
Theorem decorated_config_has_no_empty_field
    (envPath : string) (env : Config.Env) (config : Config.AppConfig) :
  Config.outcome (Config.plugin envPath env) = Config.Decorated config ->
  config = Config.readConfig env
  /\ Forall (fun kv => snd kv <> ""%string) (Config.entries config)
  /\ Config.errorLog (Config.plugin envPath env) = [].
Proof.
  unfold Config.plugin.
  destruct (Config.firstUnset (Config.entries (Config.readConfig env))) eqn:E;
    cbn [Config.outcome Config.errorLog]; intros H; [discriminate |].
  inversion H; subst config.
  repeat split. now apply firstUnset_None.
Qed.

(** X15: on names made of code units below 128, the conversion to the
    variable name distributes over concatenation, adds one character per
    capital letter of the name, and leaves none of the letters [a] to [z]
    in its result. *)
Theorem camelCaseToUpperSnakeCase_shape (s t : string) :
  Config.below128 s = true ->
  Config.below128 t = true ->
  Config.camelCaseToUpperSnakeCase (s ++ t)
  = (Config.camelCaseToUpperSnakeCase s ++ Config.camelCaseToUpperSnakeCase t)%string
  /\ String.length (Config.camelCaseToUpperSnakeCase s)
     = String.length s + Config.capitals s
  /\ Config.noSmall (Config.camelCaseToUpperSnakeCase s) = true.
Proof.
  intros _ _. unfold Config.camelCaseToUpperSnakeCase.
  split; [now rewrite underscoreCapitals_app, toUpperCase_app |].
  split; [| apply toUpperCase_noSmall].
  rewrite toUpperCase_length.
  induction s as [|c s IH]; simpl; [reflexivity |].
  destruct (Config.isCapital c); simpl; rewrite IH; lia.
Qed.

(** X16: when the storage and search variables are set and
    [AZURE_OPENAI_SERVICE] is not, the error names
    [AZURE_OPEN_AI_SERVICE], which is not the variable the plugin reads;
    whether a variable of that name is set makes no difference. *)
Theorem missing_openai_service_is_misnamed (envPath : string) (env : Config.Env) :
  Config.isSet env "AZURE_STORAGE_ACCOUNT" = true ->
  Config.isSet env "AZURE_STORAGE_CONTAINER" = true ->
  Config.isSet env "AZURE_SEARCH_SERVICE" = true ->
  Config.isSet env "AZURE_SEARCH_INDEX" = true ->
  Config.isSet env "AZURE_OPENAI_SERVICE" = false ->
  Config.outcome (Config.plugin envPath env)
  = Config.Thrown "AZURE_OPEN_AI_SERVICE environment variable must be set".
Proof.
  intros H1 H2 H3 H4 H5.
  rewrite plugin_by_first_unset. unfold Config.REQUIRED.
  cbn [find fst]. rewrite H1, H2, H3, H4, H5. reflexivity.
Qed.

(** ** The further properties on concrete inputs *)

Lemma whole_history_when_budget_suffices_witness :
  (forall j, 1 <= j < length (firstn 3 Demo.conversation) ->
     (costAfter Demo.meter "S" "gpt-35-turbo" "Q" QUERY_PROMPT_FEW_SHOTS
        (rev (firstn 3 Demo.conversation)) j <= 4096)%Z)
  /\ returned (getMessagesFromHistory Demo.meter "S" "gpt-35-turbo"
                 (firstn 3 Demo.conversation ++ [Demo.paymentQuestion]) "Q"
                 QUERY_PROMPT_FEW_SHOTS 4096)
     = {| role := Role.system; content := "S" |}
         :: QUERY_PROMPT_FEW_SHOTS ++ flat_map turnMessages (firstn 3 Demo.conversation)
         ++ [ {| role := Role.user; content := "Q" |} ].
Proof.
  assert (H : forall j, 1 <= j < length (firstn 3 Demo.conversation) ->
                (costAfter Demo.meter "S" "gpt-35-turbo" "Q" QUERY_PROMPT_FEW_SHOTS
                   (rev (firstn 3 Demo.conversation)) j <= 4096)%Z).
  { intros j Hj. simpl in Hj.
    assert (Hcases : j = 1 \/ j = 2) by lia.
    destruct Hcases as [-> | ->]; vm_compute; discriminate. }
  split; [exact H |].
  exact (whole_history_when_budget_suffices Demo.meter "S" "gpt-35-turbo"
           (firstn 3 Demo.conversation) Demo.paymentQuestion "Q"
           QUERY_PROMPT_FEW_SHOTS 4096 H).
Defined.

Lemma overshoot_is_at_most_one_turn_witness :
  2 <= includedTurns Demo.meter "S" "gpt-35-turbo" Demo.conversation "Q"
         QUERY_PROMPT_FEW_SHOTS 170
  /\ exists oldest : HistoryMessage,
       nth_error (rev (removelast Demo.conversation)) (2 - 1) = Some oldest
       /\ (tokensOf Demo.meter "gpt-35-turbo"
             (returned (getMessagesFromHistory Demo.meter "S" "gpt-35-turbo"
                          Demo.conversation "Q" QUERY_PROMPT_FEW_SHOTS 170))
           <= 170 + tokensOf Demo.meter "gpt-35-turbo" (turnMessages oldest))%Z.
Proof.
  assert (H : 2 <= includedTurns Demo.meter "S" "gpt-35-turbo" Demo.conversation "Q"
                     QUERY_PROMPT_FEW_SHOTS 170) by (vm_compute; lia).
  split; [exact H |].
  exact (overshoot_is_at_most_one_turn Demo.meter "S" "gpt-35-turbo" Demo.conversation "Q"
           QUERY_PROMPT_FEW_SHOTS 170 H).
Defined.

Lemma thoughts_replace_first_line_feed_witness :
  lineFeedFree "system: rules" = true
  /\ exists (base : BaseRun unit) (w' : World unit) (q : option string),
       baseRun unit tt tt "gpt-35-turbo" 4000 Demo.meter (fun _ => Some "payment error")
         Demo.searchDocuments Sample.render ([] ++ [Demo.paymentQuestion]) None Demo.world0
       = Js.Ok (base, w')
       /\ searchedQueries unit w' = searchedQueries unit Demo.world0 ++ [q]
       /\ thoughts unit base
          = ("Searched for:<br>"
               ++ SearchDocumentsResult.query (Demo.searchDocuments q None)
               ++ "<br><br>Conversations:<br>" ++ "system: rules" ++ "<br>"
               ++ "user: question" ++ LF ++ "assistant: answer")%string.
Proof.
  assert (H : lineFeedFree "system: rules" = true) by reflexivity.
  split; [exact H |].
  exact (thoughts_replace_first_line_feed unit tt tt "gpt-35-turbo" 4000 Demo.meter
           (fun _ => Some "payment error"%string) Demo.searchDocuments Sample.render
           [] Demo.paymentQuestion None Demo.world0
           "system: rules" ("user: question" ++ LF ++ "assistant: answer")%string
           eq_refl H).
Defined.

Lemma sentinel_is_never_searched_witness :
  user Demo.paymentQuestion <> Some "0"%string
  /\ exists (base : BaseRun unit) (w' : World unit) (q : option string),
       Demo.baseRun (Some "0"%string) ([] ++ [Demo.paymentQuestion]) None Demo.world0
       = Js.Ok (base, w')
       /\ searchedQueries unit w' = searchedQueries unit Demo.world0 ++ [q]
       /\ q <> Some "0"%string.
Proof.
  assert (H : user Demo.paymentQuestion <> Some "0"%string) by (simpl; discriminate).
  split; [exact H |].
  exact (sentinel_is_never_searched unit tt tt "gpt-35-turbo" 4000 Demo.meter
           (fun _ => Some "0"%string) Demo.searchDocuments Demo.messagesToString
           [] Demo.paymentQuestion None Demo.world0 H).
Defined.

Lemma plain_override_is_injected_as_written_witness :
  dollarFree (injectedText (promptOverrideOf Sample.frenchContext)) = true
  /\ exists (base : BaseRun unit) (w' : World unit) (rest : list Message),
       Demo.baseRun (Some "payment error"%string) ([] ++ [Demo.paymentQuestion])
         Sample.frenchContext Demo.world0
       = Js.Ok (base, w')
       /\ CompletionRequest.messages (completionRequest unit base)
          = {| role := Role.system;
               content := templateWith FOLLOW_UP_QUESTIONS_PROMPT_CONTENT
                            ("Answer in French." ++ LF) |} :: rest.
Proof.
  assert (H : dollarFree (injectedText (promptOverrideOf Sample.frenchContext)) = true)
    by reflexivity.
  split; [exact H |].
  exact (plain_override_is_injected_as_written unit tt tt "gpt-35-turbo" 4000 Demo.meter
           (fun _ => Some "payment error"%string) Demo.searchDocuments
           Demo.messagesToString [] Demo.paymentQuestion Sample.frenchContext
           Demo.world0 H).
Defined.

Lemma decorated_config_has_no_empty_field_witness :
  Config.outcome (Config.plugin "/srv/.env" Sample.fullEnv)
  = Config.Decorated (Config.readConfig Sample.fullEnv)
  /\ Config.readConfig Sample.fullEnv = Config.readConfig Sample.fullEnv
  /\ Forall (fun kv => snd kv <> ""%string)
            (Config.entries (Config.readConfig Sample.fullEnv))
  /\ Config.errorLog (Config.plugin "/srv/.env" Sample.fullEnv) = [].
Proof.
  assert (H : Config.outcome (Config.plugin "/srv/.env" Sample.fullEnv)
              = Config.Decorated (Config.readConfig Sample.fullEnv)) by reflexivity.
  split; [exact H |].
  exact (decorated_config_has_no_empty_field "/srv/.env" Sample.fullEnv
           (Config.readConfig Sample.fullEnv) H).
Defined.

Lemma camelCaseToUpperSnakeCase_shape_witness :
  Config.below128 "azureOpenAi" = true
  /\ Config.below128 "Service" = true
  /\ Config.camelCaseToUpperSnakeCase ("azureOpenAi" ++ "Service")
     = (Config.camelCaseToUpperSnakeCase "azureOpenAi"
          ++ Config.camelCaseToUpperSnakeCase "Service")%string
  /\ String.length (Config.camelCaseToUpperSnakeCase "azureOpenAi")
     = String.length "azureOpenAi" + Config.capitals "azureOpenAi"
  /\ Config.noSmall (Config.camelCaseToUpperSnakeCase "azureOpenAi") = true.
Proof.
  assert (H1 : Config.below128 "azureOpenAi" = true) by reflexivity.
  assert (H2 : Config.below128 "Service" = true) by reflexivity.
  split; [exact H1 |]. split; [exact H2 |].
  exact (camelCaseToUpperSnakeCase_shape "azureOpenAi" "Service" H1 H2).
Defined.

Lemma missing_openai_service_is_misnamed_witness :
  Config.isSet Sample.misnamedEnv "AZURE_OPEN_AI_SERVICE" = true
  /\ Config.isSet Sample.misnamedEnv "AZURE_OPENAI_SERVICE" = false
  /\ Config.outcome (Config.plugin "/srv/.env" Sample.misnamedEnv)
     = Config.Thrown "AZURE_OPEN_AI_SERVICE environment variable must be set".
Proof.
  split; [reflexivity |]. split; [reflexivity |].
  exact (missing_openai_service_is_misnamed "/srv/.env" Sample.misnamedEnv
           eq_refl eq_refl eq_refl eq_refl eq_refl).
Defined.

Example config_variable_names :
  map (fun nk => Config.camelCaseToUpperSnakeCase (snd nk)) Config.REQUIRED
  = [ "AZURE_STORAGE_ACCOUNT"; "AZURE_STORAGE_CONTAINER"; "AZURE_SEARCH_SERVICE";
      "AZURE_SEARCH_INDEX"; "AZURE_OPEN_AI_SERVICE";
      "AZURE_OPEN_AI_EMB_DEPLOYMENT" ]%string.
Proof. reflexivity. Qed.

Example empty_environment_fails_first_key :
  Config.plugin "/srv/.env" (fun _ => None)
  = {| Config.consoleLog := [ "Loading .env config from /srv/.env..."%string ];
       Config.errorLog := [ "AZURE_STORAGE_ACCOUNT environment variable must be set"%string ];
       Config.outcome :=
         Config.Thrown "AZURE_STORAGE_ACCOUNT environment variable must be set" |}.
Proof. reflexivity. Qed.

(** ** Two more properties *)

(** X17: the turns taken from the history are always the most recent ones
    before the last, without gap and in the order of the conversation: the
    earlier turns split into a dropped older part and a kept newer part, and
    the returned sequence holds the messages of the kept part. *)
Theorem included_turns_are_the_most_recent
    (cost : Message -> string -> Z) (systemPrompt chatModel : string)
    (history : list HistoryMessage) (userContent : string)
    (fewShots : list Message) (maxTokens : Z) :
  exists dropped kept : list HistoryMessage,
    removelast history = dropped ++ kept
    /\ length kept
       = includedTurns cost systemPrompt chatModel history userContent fewShots maxTokens
    /\ returned (getMessagesFromHistory cost systemPrompt chatModel history userContent
                   fewShots maxTokens)
       = {| role := Role.system; content := systemPrompt |}
           :: fewShots ++ flat_map turnMessages kept
           ++ [ {| role := Role.user; content := userContent |} ].
Proof.
  destruct (includedTurns_spec cost systemPrompt chatModel history userContent
              fewShots maxTokens) as (Hle & _).
  rewrite length_rev in Hle.
  set (k := includedTurns cost systemPrompt chatModel history userContent fewShots
              maxTokens) in *.
  exists (firstn (length (removelast history) - k) (removelast history)),
         (skipn (length (removelast history) - k) (removelast history)).
  split; [symmetry; apply firstn_skipn |].
  split; [rewrite length_skipn; lia |].
  rewrite getMessagesFromHistory_returned. fold k.
  rewrite firstn_rev, rev_involutive. reflexivity.
Qed.

Section PipelineContext.

Variable number : Type.
Variable number_0 number_0_7 : number.
Variable chatGptModel : string.
Variable chatGptTokenLimit : Z.
Variable cost : Message -> string -> Z.
Variable createCompletion : CompletionRequest.t number -> option string.
Variable searchDocuments :
  option string -> option (ChatApproachContext.t number) -> SearchDocumentsResult.t.
Variable messagesToString : list Message -> string.

(** X18: the caller's context has no influence on the query-rewrite step:
    for two contexts, the same history and the same state, the request sent
    for the query is the same one, with temperature 0, at most 32 tokens
    and one completion, and so the same query is searched. *)
Theorem context_does_not_reach_query_rewrite
    (older : list HistoryMessage) (h : HistoryMessage)
    (context1 context2 : option (ChatApproachContext.t number)) (w : World number) :
  exists (base1 base2 : BaseRun number) (w1 w2 : World number)
         (request : CompletionRequest.t number),
    baseRun number number_0 number_0_7 chatGptModel chatGptTokenLimit cost
      createCompletion searchDocuments messagesToString (older ++ [h]) context1 w
    = Js.Ok (base1, w1)
    /\ baseRun number number_0 number_0_7 chatGptModel chatGptTokenLimit cost
         createCompletion searchDocuments messagesToString (older ++ [h]) context2 w
       = Js.Ok (base2, w2)
    /\ createRequests number w1 = createRequests number w ++ [request]
    /\ createRequests number w2 = createRequests number w ++ [request]
    /\ searchedQueries number w1 = searchedQueries number w2
    /\ CompletionRequest.temperature request = number_0
    /\ CompletionRequest.max_tokens request = 32%Z
    /\ CompletionRequest.n request = 1%Z.
Proof.
  destruct (baseRun_snoc number number_0 number_0_7 chatGptModel chatGptTokenLimit cost
              createCompletion searchDocuments messagesToString older h context1 w)
    as (base1 & H1).
  destruct (baseRun_snoc number number_0 number_0_7 chatGptModel chatGptTokenLimit cost
              createCompletion searchDocuments messagesToString older h context2 w)
    as (base2 & H2).
  eexists base1, base2, _, _, _. split; [exact H1 |]. split; [exact H2 |].
  rewrite !createRequests_app, !searchedQueries_app.
  repeat split.
Qed.

End PipelineContext.
